(** * zeno-build: the sweep driver and the cached run adapter

    A shallow embedding of [examples/transcription/modeling.py] and
    [examples/chatbot/main.py].  The file system, the console and the calls
    to external collaborators are an explicit [World]; Python code that
    reads or writes it is a computation in the state-and-exception monad
    [M]. *)

From stdpp Require Import gmap strings list fin_maps.
From Stdlib Require Import ZArith Ascii Sorted Permutation.

Open Scope string_scope.
Open Scope list_scope.

(** ** Python values, exceptions and the world *)

(** Values that [json.load] yields and [json.dump] accepts; parameter values
    of a search space are of this type as well.  A float is kept as the pair
    of its mantissa and binary exponent. *)
#[local] Unset Elimination Schemes.
Inductive json : Type :=
| JNull
| JBool (b : bool)
| JInt (z : Z)
| JFloat (mantissa exponent : Z)
| JStr (s : string)
| JArr (items : list json)
| JObj (fields : list (string * json)).
#[local] Set Elimination Schemes.

(** Python dictionaries keep the order in which their keys were inserted,
    and the enumeration of a search space follows it: a dictionary is the
    list of its items. *)
Definition dict (V : Type) : Type := list (string * V).

(** [d[k]] as an expression *)
Fixpoint dict_lookup {V} (k : string) (d : dict V) : option V :=
  match d with
  | [] => None
  | (k', v) :: rest => if decide (k' = k) then Some v else dict_lookup k rest
  end.

(** [d[k] = v]: an existing key keeps its place, a new one goes last. *)
Fixpoint dict_set {V} (k : string) (v : V) (d : dict V) : dict V :=
  match d with
  | [] => [(k, v)]
  | (k', v') :: rest =>
      if decide (k' = k) then (k, v) :: rest else (k', v') :: dict_set k v rest
  end.

(** Modelled from the spec: the dimension classes of
    zeno_build.experiments.search_space are not among the sources.  "a named
    axis of variation; variants: Categorical (ordered list of candidate
    values) or Constant (single fixed value)", and the overview's "ranges". *)
Inductive Dimension : Type :=
| Categorical (choices : list json)
| Constant (value : json)
| Range (lower upper : Z).

(** Modelled from the spec: "SearchSpace - a mapping from dimension name to
    Dimension". *)
Record CombinatorialSearchSpace : Type := mkSpace {
  dimensions : dict Dimension
}.

(** Modelled from the spec: "an ordered sequence of SearchSpaces". *)
Definition CompositeSearchSpace : Type := list CombinatorialSearchSpace.

(** zeno_build.prompts.chat_prompt, as the driver uses it: a conversation is
    a list of turns, each with a [content]. *)
Record ChatTurn : Type := mkTurn {
  role : string;
  content : string
}.

Record ChatMessages : Type := mkChat {
  messages : list ChatTurn
}.

(** zeno_build.experiments.experiment_run, as the driver builds it. *)
Record ExperimentRun : Type := mkRun {
  parameters : json;
  predictions : json;
  name : string
}.

(** Subclasses of Python's [Exception], the ones an [except Exception]
    clause catches.  [BackendError] stands for whatever a generation backend
    raises, with its message. *)
Inductive exn : Type :=
| BackendError (msg : string)
| KeyError (key : string)
| IndexError
| AssertionError
| ValueError (msg : string)
| FileNotFoundError (path : string)
| JSONDecodeError
| StopIteration
| ReferenceError.

Inductive result (A : Type) : Type :=
| Ok (a : A)
| Err (e : exn).
Arguments Ok {A} a.
Arguments Err {A} e.

(** What an observer of a run can see besides the files: the calls that
    leave the program and the lines it prints. *)
Inductive event : Type :=
| EvBackend (model_name : string) (audio_paths : list string)
| EvLock (root : string)
| EvFailCache (root : string)
| EvPrint (line : string)
| EvWarning (line : string)
| EvMetric (id : string)
| EvVisualize (labels : list string) (results : list ExperimentRun).

(** The file system (path to content), the objects that live on the Python
    heap and are mutated in place (the search spaces), and the events so
    far. *)
Record World : Type := mkWorld {
  files : gmap string string;
  heap : gmap positive CombinatorialSearchSpace;
  trace : list event
}.

Definition M (A : Type) : Type := World -> result A * World.

Definition ret {A} (a : A) : M A := fun w => (Ok a, w).
Definition raise {A} (e : exn) : M A := fun w => (Err e, w).
Definition bind {A B} (c : M A) (k : A -> M B) : M B :=
  fun w => match c w with
           | (Ok a, w') => k a w'
           | (Err e, w') => (Err e, w')
           end.
Definition lift {A} (r : result A) : M A := fun w => (r, w).

Declare Scope py_scope.
Delimit Scope py_scope with py.
Notation "x <- c ;; k" := (bind c (fun x => k))
  (at level 100, c at next level, right associativity) : py_scope.
Notation "c ;;; k" := (bind c (fun _ => k))
  (at level 100, right associativity) : py_scope.
Open Scope py_scope.

(** [try: body / except Exception: handler] *)
Definition try_except {A} (body : M A) (handler : exn -> M A) : M A :=
  fun w => match body w with
           | (Ok a, w') => (Ok a, w')
           | (Err e, w') => handler e w'
           end.

Definition log (ev : event) : M unit :=
  fun w => (Ok tt, mkWorld (files w) (heap w) (trace w ++ [ev])).

(** [os.path.exists] *)
Definition path_exists (p : string) : M bool :=
  fun w => (Ok (bool_decide (is_Some (files w !! p))), w).

(** [open(p, "r")] followed by reading the whole file *)
Definition read_file (p : string) : M string :=
  fun w => match files w !! p with
           | Some c => (Ok c, w)
           | None => (Err (FileNotFoundError p), w)
           end.

(** [open(p, "w")] followed by [f.write(c)] *)
Definition write_file (p c : string) : M unit :=
  fun w => (Ok tt, mkWorld (<[p := c]> (files w)) (heap w) (trace w)).

(** [os.remove] of a file that may already be gone *)
Definition remove_file (p : string) : M unit :=
  fun w => (Ok tt, mkWorld (delete p (files w)) (heap w) (trace w)).

(** The text form of JSON: [json.dumps] and [json.loads]. *)
Class JsonCodec : Type := {
  json_dumps : json -> string;
  json_loads : string -> option json
}.

(** The identity of a parameter assignment: the name [get_cache_path] gives
    to its artifacts inside the output directory. *)
Class CacheKey : Type := {
  fingerprint : dict json -> string
}.

(** [traceback.format_exc()] in the handler of [e] *)
Class Traceback : Type := {
  format_exc : exn -> string
}.

(** The audio transcription package. *)
Class Whisper : Type := {
  whisper_model : Type;
  load_model : string -> result whisper_model;
  transcribe : whisper_model -> string -> result string
}.

Section Json_files.
Context `{JsonCodec}.

(** [with open(p, "r") as f: json.load(f)] *)
Definition json_load (p : string) : M json :=
  c <- read_file p ;;
  match json_loads c with
  | Some j => ret j
  | None => raise JSONDecodeError
  end.

(** [with open(p, "w") as f: json.dump(j, f)] *)
Definition json_dump (j : json) (p : string) : M unit :=
  write_file p (json_dumps j).
End Json_files.

(** ** zeno_build.cache_utils *)

Module cache_utils.
Section cache_utils.
Context `{CacheKey}.

(** Modelled from the spec: [get_cache_path] of zeno_build.cache_utils is
    not among the sources.  "cachePathFor(fingerprint) -> artifact root:
    deterministic path derivation". *)
Definition get_cache_path (cache_root : string)
    (params : dict json) : string :=
  cache_root +:+ "/" +:+ fingerprint params.

Definition lock_path (root : string) : string := root +:+ ".lock".
Definition fail_path (root : string) : string := root +:+ ".fail".

(** Modelled from the spec: [CacheLock.__enter__] of zeno_build.cache_utils
    is not among the sources.  "attempts to atomically create a lock
    marker.  If the marker already exists [...] returns already held
    rather than blocking"; a failed entry is "terminal [...] not
    auto-retried" and "excluded from [...] re-attempt", so a failure
    marker refuses the claim as well. *)
Definition CacheLock_enter (root : string) : M bool :=
  log (EvLock root) ;;;
  locked <- path_exists (lock_path root) ;;
  failed <- path_exists (fail_path root) ;;
  if locked || failed then ret false
  else write_file (lock_path root) "" ;;; ret true.

(** Modelled from the spec: [CacheLock.__exit__] of zeno_build.cache_utils
    is not among the sources.  "Scoped release: lock marker is removed
    when work concludes"; a handle that did not get the lock leaves the
    holder's marker alone. *)
Definition CacheLock_exit (root : string) (held : bool) : M unit :=
  if held then remove_file (lock_path root) else ret tt.

(** [with CacheLock(root) as cache_lock: body cache_lock]: Python runs
    [__exit__] on every way out of the block, a [return] and a raised
    exception included, and the exception then goes on to the caller. *)
Definition with_CacheLock {A} (root : string) (body : bool -> M A) : M A :=
  fun w =>
    match CacheLock_enter root w with
    | (Ok cache_lock, w1) =>
        let '(r, w2) := body cache_lock w1 in
        (r, snd (CacheLock_exit root cache_lock w2))
    | (Err e, w1) => (Err e, w1)
    end.

(** Modelled from the spec: [fail_cache] of zeno_build.cache_utils is not
    among the sources.  "markFailed(root, diagnostic): writes a terminal
    failure marker plus a diagnostic payload". *)
Definition fail_cache (root : string) (cache_message : string) : M unit :=
  log (EvFailCache root) ;;;
  write_file (fail_path root) cache_message.
End cache_utils.
End cache_utils.

(** ** examples/transcription/modeling.py *)

Module transcription.
Section modeling.
Context `{JsonCodec} `{CacheKey} `{Traceback} `{Whisper}.
Import cache_utils.

(** The loop of [transcribe_audio]: [outs.append(model.transcribe(p)["text"])]
    for every path, in order. *)
Fixpoint transcribe_all (model : whisper_model) (audio_paths : list string)
    (outs : list string) : result (list string) :=
  match audio_paths with
  | [] => Ok outs
  | p :: rest =>
      match transcribe model p with
      | Ok text => transcribe_all model rest (outs ++ [text])
      | Err e => Err e
      end
  end.

Definition transcribe_audio (model_name : string)
    (audio_paths : list string) : M (list string) :=
  log (EvBackend model_name audio_paths) ;;;
  model <- lift (load_model model_name) ;;
  lift (transcribe_all model audio_paths []).

Definition make_predictions (audio_paths : list string)
    (model_name : string) (output_dir : string) : M (option json) :=
  let file_root :=
    get_cache_path output_dir [("model_preset", JStr model_name)] in
  cached <- path_exists (file_root +:+ ".json") ;;
  if cached then
    stored <- json_load (file_root +:+ ".json") ;;
    ret (Some stored)
  else
    with_CacheLock file_root (fun cache_lock =>
      if negb cache_lock then ret None
      else
        predictions <-
          try_except (transcribe_audio model_name audio_paths)
            (fun e =>
               let tb := format_exc e in
               fail_cache file_root tb ;;;
               raise e) ;;
        json_dump (JArr (JStr <$> predictions)) (file_root +:+ ".json") ;;;
        ret (Some (JArr (JStr <$> predictions)))).
End modeling.
End transcription.

(** ** Strings and paths as Python computes them *)

(** [s.endswith(suffix)] *)
Definition endswith (suffix s : string) : bool :=
  let l := String.list_ascii_of_string s in
  let k := String.list_ascii_of_string suffix in
  bool_decide (drop (length l - length k) l = k).

(** [s[:-n]] for a positive [n] *)
Definition drop_last (n : nat) (s : string) : string :=
  let l := String.list_ascii_of_string s in
  String.string_of_list_ascii (take (length l - n) l).

(** [os.path.join(a, b)] for a relative [b] *)
Definition path_join (a b : string) : string :=
  if bool_decide (a = "") || endswith "/" a then a +:+ b
  else a +:+ "/" +:+ b.

(** [next(f)] on a text file freshly opened with [open(p, "r")]: the first
    line with its line break, [None] on an empty file (Python raises
    StopIteration).  The file is read with universal newlines: a line ends
    at a line feed, at a carriage return, or at the two in a row, and each
    of them reaches the program as one line feed. *)
Fixpoint first_line (c : string) : option string :=
  match c with
  | EmptyString => None
  | String a rest =>
      if decide (a = "010"%char) then Some (String "010"%char EmptyString)
      else if decide (a = "013"%char) then Some (String "010"%char EmptyString)
      else match first_line rest with
           | Some l => Some (String a l)
           | None => Some (String a EmptyString)
           end
  end.

(** ** zeno_build.experiments.search_space *)

Module search_space.
Section search_space.
Context `{CacheKey}.
Import cache_utils.

(** The candidate values of one dimension, in their declared order. *)
Definition dim_values (d : Dimension) : list json :=
  match d with
  | Categorical choices => choices
  | Constant value => [value]
  | Range lower upper => JInt <$> seqZ lower (upper - lower + 1)
  end.

(** Modelled from the spec: the enumeration of a search space is not among
    the sources.  "produces every full combination across all dimensions
    [...] dimensions are iterated in a fixed declared order, with the
    last-declared dimension varying fastest". *)
Fixpoint combinations (dims : dict Dimension) : list (dict json) :=
  match dims with
  | [] => [[]]
  | (dim_name, d) :: rest =>
      v ← dim_values d;
      assignment ← combinations rest;
      [(dim_name, v) :: assignment]
  end.

(** Modelled from the spec: "for CompositeSearchSpace, the union (not
    cross-product) of each sub-space's own enumeration, preserving each
    sub-space's internal cross-product order, then concatenated in
    sub-space declaration order". *)
Definition enumerate (space : CompositeSearchSpace) : list (dict json) :=
  sub ← space; combinations (dimensions sub).

Definition output_path (root : string) : string := root +:+ ".json".
Definition param_path (root : string) : string := root +:+ ".zbp".

Definition has_file (fs : gmap string string) (p : string) : bool :=
  bool_decide (is_Some (fs !! p)).

(** Modelled from the spec: "an entry is completed strictly by presence of
    its output artifact, independent of lock state". *)
Definition completed (fs : gmap string string) (root : string) : bool :=
  has_file fs (output_path root).

(** Modelled from the spec: "locked-in-progress (lock marker present, no
    output yet)". *)
Definition in_progress (fs : gmap string string) (root : string) : bool :=
  has_file fs (lock_path root) && negb (completed fs root).

(** Modelled from the spec: "failed (failure marker present, terminal)",
    an entry that "did not produce usable output". *)
Definition failed (fs : gmap string string) (root : string) : bool :=
  has_file fs (fail_path root) && negb (completed fs root).

(** The artifact roots of a space inside a results directory, each once. *)
Definition space_roots (space : CompositeSearchSpace) (output_dir : string)
    : list string :=
  remove_dups (get_cache_path output_dir <$> enumerate space).

(** Modelled from the spec: [get_valid_param_files] of
    zeno_build.experiments.search_space is not among the sources.  It
    yields the parameter records of the entries of the space that count as
    claimed: the completed ones, and the in-progress ones when
    [include_in_progress]. *)
Definition get_valid_param_files (space : CompositeSearchSpace)
    (output_dir : string) (include_in_progress : bool) : M (list string) :=
  fun w =>
    let fs := files w in
    (Ok (param_path <$>
           List.filter
             (fun root =>
                has_file fs (param_path root) &&
                (completed fs root ||
                 (include_in_progress && in_progress fs root)))
             (space_roots space output_dir)),
     w).
End search_space.
End search_space.

(** ** zeno_build.optimizers.exhaustive *)

Module exhaustive.
Section exhaustive.
Context `{CacheKey}.
Import cache_utils search_space.

(** Modelled from the spec: [ExhaustiveOptimizer] of
    zeno_build.optimizers.exhaustive is not among the sources.  "State
    machine over (SearchSpace, trial budget)" with "an internal cursor over
    the space's enumeration"; [cursor] holds the assignments not yet
    visited and [trials] the number handed out. *)
Record ExhaustiveOptimizer : Type := mkOptimizer {
  space : CompositeSearchSpace;
  num_trials : option nat;
  cursor : list (dict json);
  trials : nat
}.

Definition new (space : CompositeSearchSpace) (num_trials : option nat)
    : ExhaustiveOptimizer :=
  mkOptimizer space num_trials (enumerate space) 0.

(** An entry nobody has to work on any more: "already completed or
    locked-in-progress [...] or failed". *)
Definition claimed (fs : gmap string string) (output_dir : string)
    (assignment : dict json) : bool :=
  let root := get_cache_path output_dir assignment in
  completed fs root || in_progress fs root || failed fs root.

Definition budget_met (o : ExhaustiveOptimizer) : bool :=
  match num_trials o with
  | Some n => bool_decide (n <= trials o)
  | None => false
  end.

(** The cursor moves past every claimed assignment. *)
Fixpoint skip_claimed (fs : gmap string string) (output_dir : string)
    (todo : list (dict json)) : list (dict json) :=
  match todo with
  | [] => []
  | assignment :: rest =>
      if claimed fs output_dir assignment
      then skip_claimed fs output_dir rest
      else todo
  end.

(** Modelled from the spec: "advances an internal cursor over the space's
    enumeration, skipping any assignment whose fingerprint is already
    completed or locked-in-progress [...] or failed; returns none when
    enumeration is exhausted or budget met".  The cache consulted is the
    results root of the sweep, [output_dir]. *)
Definition get_parameters (output_dir : string) (o : ExhaustiveOptimizer)
    : M (option (dict json) * ExhaustiveOptimizer) :=
  fun w =>
    if budget_met o then (Ok (None, o), w)
    else
      match skip_claimed (files w) output_dir (cursor o) with
      | [] => (Ok (None, mkOptimizer (space o) (num_trials o) [] (trials o)), w)
      | assignment :: rest =>
          (Ok (Some assignment,
               mkOptimizer (space o) (num_trials o) rest (S (trials o))), w)
      end.

(** Modelled from the spec: "true iff the count of entries considered
    claimed (completed, and optionally in-progress when includeInProgress)
    meets or exceeds the trial budget, or the space is fully enumerated
    with no untried assignments left". *)
Definition is_complete (o : ExhaustiveOptimizer) (output_dir : string)
    (include_in_progress : bool) : M bool :=
  valid <- get_valid_param_files (space o) output_dir include_in_progress ;;
  fun w =>
    let within_budget :=
      match num_trials o with
      | Some n => bool_decide (n <= length valid)
      | None => false
      end in
    (Ok (within_budget ||
         forallb (claimed (files w) output_dir) (enumerate (space o))), w).
End exhaustive.
End exhaustive.

(** ** The collaborators of examples/chatbot/main.py *)

(** examples/chatbot/config.py, as far as the driver reads it.  The preset
    search spaces are objects on the heap; [experiments] maps a name to the
    address of its object. *)
Module DatasetConfig.
Record t : Type := mk {
  dataset : string;
  split : string;
  data_format : string;
  data_column : string
}.
End DatasetConfig.

Module chatbot_config.
Class Config : Type := {
  experiments : dict positive;
  dataset : string;
  dataset_configs : dict DatasetConfig.t;
  num_trials : option nat
}.
End chatbot_config.

(** examples/chatbot/modeling.py: data loading and the run adapter of the
    chat task.  Both act on the world in ways this development leaves
    open. *)
Module modeling.
Class Modeling : Type := {
  process_data :
    string -> string -> string -> string -> string -> M (list ChatMessages);
  make_predictions :
    list ChatMessages -> json -> json -> json -> json -> json -> json ->
    string -> string -> M (option (string * json))
}.
End modeling.

(** The metric of the optimizer and the text form of its scalar.
    Modelled from the spec: [calculate_metric] of the optimizer is not among
    the sources.  "pure function over produced outputs and ground truth; no
    side effects on cache state". *)
Class Scoring : Type := {
  float : Type;
  calculate_metric : list ChatMessages -> list string -> json -> float;
  (** [f"{x}"] *)
  float_str : float -> string;
  (** [float(line.strip())], [None] where Python raises ValueError *)
  parse_float : string -> option float
}.

(** [repr] of a parameter dictionary, as an f-string prints it. *)
Class Repr : Type := {
  repr_dict : dict json -> string
}.

Module reporting_utils.
Class Naming : Type := {
  parameters_to_name : json -> CompositeSearchSpace -> string
}.
End reporting_utils.

(** ** examples/chatbot/main.py *)

Module chatbot.
Section main.
Context `{JsonCodec} `{CacheKey} `{chatbot_config.Config}
        `{modeling.Modeling} `{Scoring} `{Repr} `{reporting_utils.Naming}.
Import search_space.

Definition print (line : string) : M unit := log (EvPrint line).

(** [d[k]] on a parameter dictionary *)
Definition dict_get {V} (k : string) (d : dict V) : M V :=
  match dict_lookup k d with
  | Some v => ret v
  | None => raise (KeyError k)
  end.

(** [copy.deepcopy(obj)] of a search space: a new object with the same
    dimensions.  The dimension objects inside are copied with it and are
    never mutated afterwards (they are replaced), so they are kept as
    values. *)
Definition deepcopy (obj : positive) : M positive :=
  fun w =>
    match heap w !! obj with
    | Some s =>
        let fresh_obj := fresh (dom (heap w)) in
        (Ok fresh_obj,
         mkWorld (files w) (<[fresh_obj := s]> (heap w)) (trace w))
    | None => (Err ReferenceError, w)
    end.

(** [setting.dimensions[dim]] *)
Definition get_dimension (setting : positive) (dim : string) : M Dimension :=
  fun w =>
    match heap w !! setting with
    | Some s => dict_get dim (dimensions s) w
    | None => (Err ReferenceError, w)
    end.

(** [setting.dimensions[dim] = d] *)
Definition set_dimension (setting : positive) (dim : string) (d : Dimension)
    : M unit :=
  fun w =>
    match heap w !! setting with
    | Some s =>
        (Ok tt,
         mkWorld (files w)
           (<[setting := mkSpace (dict_set dim d (dimensions s))]> (heap w))
           (trace w))
    | None => (Err ReferenceError, w)
    end.

(** One of the two [if isinstance(...) / else: assert isinstance(...)]
    blocks of the loop over the settings. *)
Definition override_dimension (setting : positive) (dim : string)
    (many : list string) (single : string) : M unit :=
  d <- get_dimension setting dim ;;
  match d with
  | Categorical _ => set_dimension setting dim (Categorical (JStr <$> many))
  | Constant _ => set_dimension setting dim (Constant (JStr single))
  | Range _ _ => raise AssertionError
  end.

(** [[copy.deepcopy(chatbot_config.experiments[x]) for x in experiments]] *)
Fixpoint copy_settings (experiments : list string) : M (list positive) :=
  match experiments with
  | [] => ret []
  | x :: rest =>
      preset <- dict_get x chatbot_config.experiments ;;
      setting <- deepcopy preset ;;
      settings <- copy_settings rest ;;
      ret (setting :: settings)
  end.

(** [for setting in experiment_settings: ...] *)
Fixpoint update_settings (settings : list positive)
    (models : list string) (single_model : string)
    (prompts : list string) (single_prompt : string) : M unit :=
  match settings with
  | [] => ret tt
  | setting :: rest =>
      override_dimension setting "model_preset" models single_model ;;;
      override_dimension setting "prompt_preset" prompts single_prompt ;;;
      update_settings rest models single_model prompts single_prompt
  end.

(** Lines 38-53: the experiment settings with the provided models and
    prompts. *)
Definition experiment_settings (experiments : list string)
    (models : list string) (single_model : string)
    (prompts : list string) (single_prompt : string) : M (list positive) :=
  settings <- copy_settings experiments ;;
  update_settings settings models single_model prompts single_prompt ;;;
  ret settings.

(** [CompositeSearchSpace(experiment_settings)]: nothing mutates the
    settings after this point, so the composite is taken by value. *)
Fixpoint composite (settings : list positive) : M CompositeSearchSpace :=
  match settings with
  | [] => ret []
  | setting :: rest =>
      s <- (fun w => match heap w !! setting with
                     | Some s => (Ok s, w)
                     | None => (Err ReferenceError, w)
                     end) ;;
      ss <- composite rest ;;
      ret (s :: ss)
  end.

(** Lines 76-81: [labels.append(candl.messages[-1].content)] and
    [contexts.append(ChatMessages(candl.messages[:-1]))] for every
    conversation. *)
Fixpoint organize (contexts_and_labels : list ChatMessages)
    (labels : list string) (contexts : list ChatMessages)
    : result (list string * list ChatMessages) :=
  match contexts_and_labels with
  | [] => Ok (labels, contexts)
  | candl :: rest =>
      match last (messages candl) with
      | None => Err IndexError
      | Some m =>
          organize rest (labels ++ [content m])
            (contexts ++
             [mkChat (take (length (messages candl) - 1) (messages candl))])
      end
  end.

Definition eval_path (predictions_dir id : string) : string :=
  predictions_dir +:+ "/" +:+ id +:+ ".eval".

(** [float(next(f).strip())] on the opened [.eval] file.  Of the message
    of the ValueError only the fixed beginning is kept: Python goes on with
    the text it could not convert. *)
Definition read_eval (p : string) : M float :=
  c <- read_file p ;;
  match first_line c with
  | None => raise StopIteration
  | Some line =>
      match parse_float line with
      | Some x => ret x
      | None => raise (ValueError "could not convert string to float")
      end
  end.

(** Lines 114-120: run or read the evaluation result. *)
Definition run_or_read_eval (contexts : list ChatMessages)
    (labels : list string) (predictions_dir id : string)
    (predictions : json) : M float :=
  cached <- path_exists (eval_path predictions_dir id) ;;
  if cached then read_eval (eval_path predictions_dir id)
  else
    log (EvMetric id) ;;;
    let eval_result := calculate_metric contexts labels predictions in
    write_file (eval_path predictions_dir id) (float_str eval_result) ;;;
    ret eval_result.

(** How one pass through the body of the [while] loop ends. *)
Inductive control : Type :=
| Continue
| BreakComplete
| BreakExhausted.

(** Lines 92-124: the loop test and one pass through the body.  Line 94
    calls [optimizer.get_parameters()] without an argument; the cache that
    the optimizer of the spec consults is given to it here as the directory
    of the sweep, [predictions_dir]. *)
Definition iteration (contexts : list ChatMessages) (labels : list string)
    (hf_inference_method predictions_dir : string)
    (optimizer : exhaustive.ExhaustiveOptimizer)
    : M (control * exhaustive.ExhaustiveOptimizer) :=
  complete <- exhaustive.is_complete optimizer predictions_dir true ;;
  if complete then ret (BreakComplete, optimizer)
  else
    got <- exhaustive.get_parameters predictions_dir optimizer ;;
    let '(next, optimizer) := got in
    match next with
    | None => ret (BreakExhausted, optimizer)
    | Some parameters =>
        prompt_preset <- dict_get "prompt_preset" parameters ;;
        model_preset <- dict_get "model_preset" parameters ;;
        temperature <- dict_get "temperature" parameters ;;
        max_tokens <- dict_get "max_tokens" parameters ;;
        top_p <- dict_get "top_p" parameters ;;
        context_length <- dict_get "context_length" parameters ;;
        id_and_predictions <-
          modeling.make_predictions contexts prompt_preset model_preset
            temperature max_tokens top_p context_length predictions_dir
            hf_inference_method ;;
        match id_and_predictions with
        | None =>
            print ("*** Skipped run for parameters=" +:+
                   repr_dict parameters +:+ " ***") ;;;
            ret (Continue, optimizer)
        | Some (id, predictions) =>
            eval_result <-
              run_or_read_eval contexts labels predictions_dir id
                predictions ;;
            print "*** Iteration complete. ***" ;;;
            print ("Eval: " +:+ float_str eval_result +:+
                   ", Parameters: " +:+ repr_dict parameters) ;;;
            print "***************************" ;;;
            ret (Continue, optimizer)
        end
    end.

(** The [while] loop, cut off after [fuel] passes: [None] when the fuel
    runs out before the loop ends. *)
Fixpoint prediction_loop (fuel : nat) (contexts : list ChatMessages)
    (labels : list string) (hf_inference_method predictions_dir : string)
    (optimizer : exhaustive.ExhaustiveOptimizer) (w : World)
    : option (result control * World) :=
  match fuel with
  | O => None
  | S fuel' =>
      match iteration contexts labels hf_inference_method predictions_dir
              optimizer w with
      | (Ok (Continue, optimizer'), w') =>
          prediction_loop fuel' contexts labels hf_inference_method
            predictions_dir optimizer' w'
      | (Ok (exit, _), w') => Some (Ok exit, w')
      | (Err e, w') => Some (Err e, w')
      end
  end.

(** Lines 136-146: the record of one parameter file. *)
Definition load_run (my_space : CompositeSearchSpace) (param_file : string)
    : M ExperimentRun :=
  if negb (endswith ".zbp" param_file) then raise AssertionError
  else
    loaded_parameters <- json_load param_file ;;
    predictions <- json_load (drop_last 4 param_file +:+ ".json") ;;
    let name := reporting_utils.parameters_to_name loaded_parameters my_space in
    ret (mkRun loaded_parameters predictions name).

(** [for param_file in param_files: ... results.append(...)] *)
Fixpoint load_runs (my_space : CompositeSearchSpace)
    (param_files : list string) (results : list ExperimentRun)
    : M (list ExperimentRun) :=
  match param_files with
  | [] => ret results
  | param_file :: rest =>
      run <- load_run my_space param_file ;;
      load_runs my_space rest (results ++ [run])
  end.

(** [results.sort(key=lambda x: x.name)]: Python's sort is stable and
    compares strings by code point, so its result is the one of this
    stable insertion sort. *)
Fixpoint insert_run (x : ExperimentRun) (sorted : list ExperimentRun)
    : list ExperimentRun :=
  match sorted with
  | [] => [x]
  | y :: rest =>
      if bool_decide (String.le (name x) (name y)) then x :: sorted
      else y :: insert_run x rest
  end.

Definition sort_by_name (results : list ExperimentRun) : list ExperimentRun :=
  foldr insert_run [] results.

(** Lines 127-147: the collection handed to the visualization. *)
Definition collect_results (my_space : CompositeSearchSpace)
    (predictions_dir : string) : M (list ExperimentRun) :=
  param_files <- get_valid_param_files my_space predictions_dir false ;;
  match chatbot_config.num_trials with
  | Some (S n) =>
      if bool_decide (length param_files < S n)
      then log (EvWarning
                  "Not enough completed but performing visualization anyway.")
      else ret tt
  | _ => ret tt
  end ;;;
  results <- load_runs my_space param_files [] ;;
  ret (sort_by_name results).

(** Lines 156-164, the call of the external [visualize]: what is recorded
    is the data handed over.  What the packaged viewer then does, in its
    own cache under [results_dir] as elsewhere, is not part of the model. *)
Definition visualize (labels : list string) (results : list ExperimentRun)
    : M unit :=
  log (EvVisualize labels results).

(** Everything [chatbot_main] does before the [if do_prediction:]. *)
Definition prepare (models : list string) (single_model : string)
    (prompts : list string) (single_prompt : string)
    (experiments : list string) (results_dir : string)
    : M (CompositeSearchSpace * list string * list ChatMessages) :=
  settings <-
    experiment_settings experiments models single_model prompts single_prompt ;;
  my_space <- composite settings ;;
  dataset_config <-
    dict_get chatbot_config.dataset chatbot_config.dataset_configs ;;
  let data_dir := path_join results_dir "data" in
  contexts_and_labels <-
    modeling.process_data
      (DatasetConfig.dataset dataset_config)
      (DatasetConfig.split dataset_config)
      (DatasetConfig.data_format dataset_config)
      (DatasetConfig.data_column dataset_config)
      data_dir ;;
  organized <- lift (organize contexts_and_labels [] []) ;;
  let '(labels, contexts) := organized in
  ret (my_space, labels, contexts).

Definition chatbot_main (fuel : nat)
    (models : list string) (single_model : string)
    (prompts : list string) (single_prompt : string)
    (experiments : list string) (hf_inference_method results_dir : string)
    (do_prediction do_visualization : bool) (w : World)
    : option (result unit * World) :=
  match prepare models single_model prompts single_prompt experiments
          results_dir w with
  | (Err e, w1) => Some (Err e, w1)
  | (Ok (my_space, labels, contexts), w1) =>
      let predictions_dir := path_join results_dir "predictions" in
      let swept :=
        if do_prediction then
          let optimizer :=
            exhaustive.new my_space chatbot_config.num_trials in
          match prediction_loop fuel contexts labels hf_inference_method
                  predictions_dir optimizer w1 with
          | None => None
          | Some (Ok _, w2) => Some (Ok tt, w2)
          | Some (Err e, w2) => Some (Err e, w2)
          end
        else Some (Ok tt, w1) in
      match swept with
      | None => None
      | Some (Err e, w2) => Some (Err e, w2)
      | Some (Ok _, w2) =>
          if do_visualization then
            Some ((results <- collect_results my_space predictions_dir ;;
                   visualize labels results) w2)
          else Some (Ok tt, w2)
      end
  end.

(** The parsed command line. *)
Record Args : Type := mkArgs {
  models : list string;
  single_model : string;
  prompts : list string;
  single_prompt : string;
  experiments : list string;
  hf_inference_method : string;
  results_dir : string;
  skip_prediction : bool;
  skip_visualization : bool
}.

(** Lines 226-243: the [__main__] block after [parser.parse_args()]. *)
Definition main (fuel : nat) (args : Args) (w : World)
    : option (result unit * World) :=
  if skip_prediction args && skip_visualization args then
    Some (Err (ValueError
      "Cannot specify both --skip-prediction and --skip-visualization."), w)
  else
    chatbot_main fuel (models args) (single_model args) (prompts args)
      (single_prompt args) (experiments args) (hf_inference_method args)
      (results_dir args) (negb (skip_prediction args))
      (negb (skip_visualization args)) w.
End main.
End chatbot.

(** ** Sample collaborators, small enough to run *)

Module sample.
(** A text form in which every file reads back as a string value. *)
Definition codec : JsonCodec :=
  {| json_dumps := fun j => match j with
                            | JStr s => s
                            | JArr (JStr s :: _) => s
                            | _ => "null"
                            end;
     json_loads := fun c => if decide (c = "") then None else Some (JStr c) |}.

(** The preset name of the model stands for the whole assignment. *)
Definition key : CacheKey :=
  {| fingerprint := fun params => match dict_lookup "model_preset" params with
                                  | Some (JStr s) => s
                                  | _ => "run"
                                  end |}.

Definition traceback : Traceback :=
  {| format_exc := fun e => match e with
                            | BackendError msg => "Traceback: " +:+ msg
                            | _ => "Traceback"
                            end |}.

(** A transcriber that knows every model but ["broken"]. *)
Definition whisper : Whisper :=
  {| whisper_model := string;
     load_model := fun model_name =>
       if decide (model_name = "broken")
       then Err (BackendError "no such model") else Ok model_name;
     transcribe := fun model path => Ok (model +:+ ":" +:+ path) |}.

Definition empty_world : World := mkWorld ∅ ∅ [].
Definition world_of (fs : list (string * string)) : World :=
  mkWorld (list_to_map fs) ∅ [].

(** Two presets: one sweeps over models, the other over prompts. *)
Definition model_space : CombinatorialSearchSpace :=
  mkSpace [("model_preset", Categorical [JStr "gpt2"; JStr "busy"]);
           ("prompt_preset", Constant (JStr "standard"));
           ("temperature", Constant (JFloat 3 (-1)));
           ("max_tokens", Constant (JInt 100));
           ("top_p", Constant (JInt 1));
           ("context_length", Constant (JInt 4))].

Definition prompt_space : CombinatorialSearchSpace :=
  mkSpace [("model_preset", Constant (JStr "gpt2"));
           ("prompt_preset", Categorical [JStr "standard"; JStr "friendly"]);
           ("temperature", Constant (JFloat 3 (-1)));
           ("max_tokens", Constant (JInt 100));
           ("top_p", Constant (JInt 1));
           ("context_length", Constant (JInt 4))].

(** A space whose only assignment is claimed by somebody else. *)
Definition busy_space : CombinatorialSearchSpace :=
  mkSpace [("model_preset", Constant (JStr "busy"));
           ("prompt_preset", Constant (JStr "standard"));
           ("temperature", Constant (JFloat 3 (-1)));
           ("max_tokens", Constant (JInt 100));
           ("top_p", Constant (JInt 1));
           ("context_length", Constant (JInt 4))].

Definition config : chatbot_config.Config :=
  {| chatbot_config.experiments := [("model", 1%positive); ("prompt", 2%positive)];
     chatbot_config.dataset := "dstc11";
     chatbot_config.dataset_configs :=
       [("dstc11", DatasetConfig.mk "dstc11" "validation" "dstc11" "turns")];
     chatbot_config.num_trials := Some 2 |}.

Definition preset_world : World :=
  mkWorld ∅ (<[1%positive := model_space]> (<[2%positive := prompt_space]> ∅)) [].

(** A run adapter that answers from memory: the model ["busy"] is always
    claimed by somebody else, every other model echoes its name. *)
Definition chat_modeling : modeling.Modeling :=
  {| modeling.process_data := fun _ _ _ _ _ =>
       ret [mkChat [mkTurn "user" "hi"; mkTurn "bot" "hello"]];
     modeling.make_predictions :=
       fun _ _ model_preset _ _ _ _ _ _ =>
         ret (match model_preset with
              | JStr m => if decide (m = "busy") then None
                          else Some (m, JArr [JStr m])
              | _ => None
              end) |}.

Definition scoring : Scoring :=
  {| float := Z;
     calculate_metric := fun _ labels _ => Z.of_nat (length labels);
     float_str := fun x => if decide (x = 1%Z) then "1.0" else "0.0";
     parse_float := fun line =>
       if decide (line = "1.0") then Some 1%Z
       else if decide (line = "0.0") then Some 0%Z else None |}.

Definition repr : Repr := {| repr_dict := fun _ => "{...}" |}.

Definition naming : reporting_utils.Naming :=
  {| reporting_utils.parameters_to_name := fun loaded _ =>
       match loaded with JStr s => s | _ => "run" end |}.
End sample.

(** ** Vocabulary of the statements *)

Section transcription_vocabulary.
Context `{CacheKey} `{Whisper}.
Import cache_utils transcription.

(** The artifact root of the assignment that [make_predictions] builds for
    a model. *)
Definition root_of (output_dir model_name : string) : string :=
  get_cache_path output_dir [("model_preset", JStr model_name)].

(** What the backend answers, whatever the world looks like. *)
Definition backend_outcome (model_name : string) (audio_paths : list string)
    : result (list string) :=
  match load_model model_name with
  | Ok model => transcribe_all model audio_paths []
  | Err e => Err e
  end.

(** The backend calls among the events. *)
Definition backend_calls (tr : list event) : list event :=
  List.filter (fun ev => match ev with EvBackend _ _ => true | _ => false end) tr.
End transcription_vocabulary.

Section chatbot_vocabulary.
Context `{JsonCodec} `{CacheKey} `{chatbot_config.Config}
        `{modeling.Modeling} `{Scoring} `{Repr} `{reporting_utils.Naming}.
Import cache_utils search_space exhaustive chatbot.

(** What the split makes of one conversation. *)
Definition split_of (candl : ChatMessages) (label : string)
    (context : ChatMessages) : Prop :=
  exists m, messages candl = messages context ++ [m] /\ label = content m.

(** The dimension that takes the place of [d]: of the same kind, over the
    provided values. *)
Definition replaced (many : list string) (single : string) (d d' : Dimension)
    : Prop :=
  match d with
  | Categorical _ => d' = Categorical (JStr <$> many)
  | Constant _ => d' = Constant (JStr single)
  | Range _ _ => False
  end.

(** [s'] is [s] with its two preset dimensions overridden and nothing else
    changed. *)
Definition overridden (models : list string) (single_model : string)
    (prompts : list string) (single_prompt : string)
    (s s' : CombinatorialSearchSpace) : Prop :=
  (dimensions s').*1 = (dimensions s).*1 /\
  (forall dim, dim <> "model_preset" -> dim <> "prompt_preset" ->
     dict_lookup dim (dimensions s') = dict_lookup dim (dimensions s)) /\
  (exists d d', dict_lookup "model_preset" (dimensions s) = Some d /\
     dict_lookup "model_preset" (dimensions s') = Some d' /\
     replaced models single_model d d') /\
  (exists d d', dict_lookup "prompt_preset" (dimensions s) = Some d /\
     dict_lookup "prompt_preset" (dimensions s') = Some d' /\
     replaced prompts single_prompt d d').




(** The optimizer and the world at the head of the [while] loop once [n]
    passes through its body have gone on to the next one; [None] when one
    of them left the loop or raised. *)
Fixpoint after_passes (contexts : list ChatMessages) (labels : list string)
    (hf_inference_method predictions_dir : string) (n : nat)
    (optimizer : ExhaustiveOptimizer) (w : World)
    : option (ExhaustiveOptimizer * World) :=
  match n with
  | O => Some (optimizer, w)
  | S n' =>
      match iteration contexts labels hf_inference_method predictions_dir
              optimizer w with
      | (Ok (Continue, optimizer'), w') =>
          after_passes contexts labels hf_inference_method predictions_dir
            n' optimizer' w'
      | _ => None
      end
  end.



(** The record that the artifacts of [root] give rise to. *)
Definition run_of (fs : gmap string string) (my_space : CompositeSearchSpace)
    (root : string) (run : ExperimentRun) : Prop :=
  exists stored_parameters stored_predictions loaded_parameters predictions,
    fs !! param_path root = Some stored_parameters /\
    json_loads stored_parameters = Some loaded_parameters /\
    fs !! output_path root = Some stored_predictions /\
    json_loads stored_predictions = Some predictions /\
    run = mkRun loaded_parameters predictions
            (reporting_utils.parameters_to_name loaded_parameters my_space).

Definition by_name (a b : ExperimentRun) : Prop := String.le (name a) (name b).
End chatbot_vocabulary.

(** ** Further vocabulary and samples *)

(** A dimension that the override accepts: a Categorical or a Constant. *)
Definition swappable (d : Dimension) : Prop :=
  match d with
  | Range _ _ => False
  | _ => True
  end.

(** A search space whose two preset dimensions are there and can be
    overridden. *)
Definition overridable (s : CombinatorialSearchSpace) : Prop :=
  (exists d, dict_lookup "model_preset" (dimensions s) = Some d /\ swappable d) /\
  (exists d, dict_lookup "prompt_preset" (dimensions s) = Some d /\ swappable d).

Module more_samples.
(** A text form that reads every file back as a one-element array. *)
Definition array_codec : JsonCodec :=
  {| json_dumps := fun j => match j with
                            | JArr [JStr s] => s
                            | _ => ""
                            end;
     json_loads := fun c => Some (JArr [JStr c]) |}.

(** A space without sampling parameters. *)
Definition partial_space : CombinatorialSearchSpace :=
  mkSpace [("model_preset", Constant (JStr "gpt2"));
           ("prompt_preset", Constant (JStr "standard"))].

(** Data with a conversation that has no message. *)
Definition empty_data_modeling : modeling.Modeling :=
  {| modeling.process_data := fun _ _ _ _ _ =>
       ret [mkChat [mkTurn "user" "hi"; mkTurn "bot" "hello"]; mkChat []];
     modeling.make_predictions := fun _ _ _ _ _ _ _ _ _ => ret None |}.
End more_samples.

(** * Properties *)

Ltac py_unfold :=
  repeat (progress (unfold bind, ret, raise, lift, log, try_except, path_exists,
                    read_file, write_file, remove_file, json_load, json_dump
                    in *; cbn in * )).

(** ** The monad *)

Lemma bind_Ok {A B} (c : M A) (k : A -> M B) w b w' :
  bind c k w = (Ok b, w') ->
  exists a w1, c w = (Ok a, w1) /\ k a w1 = (Ok b, w').
Proof.
  unfold bind. destruct (c w) as [[a|e] w1]; [eauto|done].
Qed.

Lemma ret_Ok {A} (a b : A) w w' : ret a w = (Ok b, w') -> a = b /\ w = w'.
Proof. unfold ret. by intros [= -> ->]. Qed.

Lemma bind_run {A B} (c : M A) (k : A -> M B) w a w1 :
  c w = (Ok a, w1) -> bind c k w = k a w1.
Proof. unfold bind. by intros ->. Qed.

Lemma dict_get_run {V} k (d : dict V) v w :
  dict_lookup k d = Some v -> chatbot.dict_get k d w = (Ok v, w).
Proof. unfold chatbot.dict_get. by intros ->. Qed.

(** ** Paths *)

Lemma list_ascii_of_string_app (a b : string) :
  String.list_ascii_of_string (a +:+ b) =
  (String.list_ascii_of_string a ++ String.list_ascii_of_string b)%list.
Proof. induction a as [|c a IH]; simpl; [done|]. by rewrite <- IH. Qed.

Lemma list_ascii_of_string_inj (a b : string) :
  String.list_ascii_of_string a = String.list_ascii_of_string b -> a = b.
Proof.
  intros E. rewrite <- (String.string_of_list_ascii_of_string a).
  rewrite <- (String.string_of_list_ascii_of_string b). by rewrite E.
Qed.

Lemma path_ext_inj (r1 r2 e1 e2 : string) :
  String.length e1 = String.length e2 ->
  r1 +:+ e1 = r2 +:+ e2 -> r1 = r2 /\ e1 = e2.
Proof.
  intros Hlen E. apply (f_equal String.list_ascii_of_string) in E.
  rewrite !list_ascii_of_string_app in E.
  apply app_inj_2 in E as [E1 E2].
  - split; by apply list_ascii_of_string_inj.
  - clear E. revert e2 Hlen.
    induction e1 as [|c e1 IH]; intros [|c2 e2]; simpl; try done.
    intros [= Hl]. f_equal. by apply IH.
Qed.

Lemma ext_ne (root e1 e2 : string) : e1 <> e2 -> root +:+ e1 <> root +:+ e2.
Proof. intros Hne E. by apply (inj (String.app root)) in E. Qed.

Lemma endswith_app (root suffix : string) : endswith suffix (root +:+ suffix) = true.
Proof.
  unfold endswith. rewrite list_ascii_of_string_app, length_app.
  apply bool_decide_eq_true_2.
  replace (length (String.list_ascii_of_string root) +
           length (String.list_ascii_of_string suffix) -
           length (String.list_ascii_of_string suffix))
    with (length (String.list_ascii_of_string root)) by lia.
  by rewrite drop_app_length.
Qed.

Lemma drop_last_app (root suffix : string) :
  drop_last (String.length suffix) (root +:+ suffix) = root.
Proof.
  unfold drop_last. rewrite list_ascii_of_string_app, length_app.
  assert (length (String.list_ascii_of_string suffix) = String.length suffix) as ->.
  { induction suffix as [|c s IH]; cbn; [done|]. by rewrite IH. }
  replace (length (String.list_ascii_of_string root) + String.length suffix -
           String.length suffix)
    with (length (String.list_ascii_of_string root)) by lia.
  rewrite take_app_length. apply String.string_of_list_ascii_of_string.
Qed.

(** ** Dictionaries *)

Lemma dict_lookup_set_eq {V} k (v : V) d : dict_lookup k (dict_set k v d) = Some v.
Proof.
  induction d as [|[k' v'] d IH]; cbn.
  - by rewrite decide_True.
  - destruct (decide (k' = k)) as [->|Hne]; cbn.
    + by rewrite decide_True.
    + by rewrite decide_False.
Qed.

Lemma dict_lookup_set_ne {V} k k' (v : V) d :
  k <> k' -> dict_lookup k' (dict_set k v d) = dict_lookup k' d.
Proof.
  intros Hne. induction d as [|[k0 v0] d IH]; cbn.
  - by rewrite decide_False.
  - destruct (decide (k0 = k)) as [->|Hne0]; cbn.
    + by rewrite !decide_False.
    + by rewrite IH.
Qed.

Lemma dict_set_keys {V} k (v : V) d :
  is_Some (dict_lookup k d) -> (dict_set k v d).*1 = d.*1.
Proof.
  induction d as [|[k0 v0] d IH]; cbn.
  - by intros [? ?].
  - destruct (decide (k0 = k)) as [->|Hne]; cbn; [done|].
    intros Hs. by rewrite IH.
Qed.

(** ** The cached run adapter of the transcription task *)

Section transcription_facts.
Context `{JsonCodec} `{CacheKey} `{Traceback} `{Whisper}.
Import cache_utils transcription.

(** C1: when the output artifact of an assignment exists, make_predictions
    returns what is stored in it (the decoding of the content of the file,
    which is the stored predictions whenever the file holds their JSON text)
    and leaves the world exactly as it was: no backend call and no attempt on
    the lock is recorded, and no file changes.  Nothing is assumed about a
    lock or failure marker at the same root. *)
Theorem C1_cache_hit_returns_stored
    (audio_paths : list string) (model_name output_dir stored : string)
    (w : World) :
  files w !! (root_of output_dir model_name +:+ ".json") = Some stored ->
  exists r,
    make_predictions audio_paths model_name output_dir w = (r, w) /\
    r = match json_loads stored with
        | Some predictions => Ok (Some predictions)
        | None => Err JSONDecodeError
        end /\
    (forall predictions,
       stored = json_dumps predictions ->
       json_loads (json_dumps predictions) = Some predictions ->
       r = Ok (Some predictions)).
Proof.
  intros Hfile. unfold root_of in Hfile.
  unfold make_predictions. py_unfold.
  rewrite bool_decide_eq_true_2 by (rewrite Hfile; eauto). cbn.
  rewrite Hfile.
  destruct (json_loads stored) as [j|] eqn:Hj; cbn.
  - eexists; split; [reflexivity|]. split; [done|].
    intros p -> Hp. rewrite Hp in Hj. by inversion Hj.
  - eexists; split; [reflexivity|]. split; [done|].
    intros p -> Hp. congruence.
Qed.

Lemma transcribe_audio_run model_name audio_paths w :
  transcribe_audio model_name audio_paths w =
  (backend_outcome model_name audio_paths,
   mkWorld (files w) (heap w) (trace w ++ [EvBackend model_name audio_paths])).
Proof.
  unfold transcribe_audio, backend_outcome. py_unfold.
  by destruct (load_model model_name).
Qed.

Lemma CacheLock_enter_run root w :
  CacheLock_enter root w =
  if bool_decide (is_Some (files w !! lock_path root)) ||
     bool_decide (is_Some (files w !! fail_path root))
  then (Ok false, mkWorld (files w) (heap w) (trace w ++ [EvLock root]))
  else (Ok true, mkWorld (<[lock_path root := ""]> (files w)) (heap w)
                   (trace w ++ [EvLock root])).
Proof.
  unfold CacheLock_enter. py_unfold.
  by destruct (bool_decide _ || bool_decide _).
Qed.

Lemma CacheLock_enter_held root w :
  fst (CacheLock_enter root w) = Ok true <->
  files w !! lock_path root = None /\ files w !! fail_path root = None.
Proof.
  rewrite CacheLock_enter_run.
  destruct (files w !! lock_path root) eqn:Hl, (files w !! fail_path root) eqn:Hf;
    cbn; split; try done; try (intros [? ?]; done).
Qed.

Lemma make_predictions_refused audio_paths model_name output_dir w :
  files w !! (root_of output_dir model_name +:+ ".json") = None ->
  fst (CacheLock_enter (root_of output_dir model_name) w) = Ok false ->
  make_predictions audio_paths model_name output_dir w =
  (Ok None, mkWorld (files w) (heap w)
              (trace w ++ [EvLock (root_of output_dir model_name)])).
Proof.
  intros Hmiss Hlock. unfold make_predictions, root_of in *.
  unfold bind at 1. unfold path_exists at 1. rewrite Hmiss.
  rewrite bool_decide_eq_false_2 by (intros [? ?]; done).
  unfold with_CacheLock. rewrite CacheLock_enter_run in *.
  destruct (bool_decide _ || bool_decide _); [done|]. cbn in Hlock. done.
Qed.

Lemma make_predictions_held audio_paths model_name output_dir w :
  let root := root_of output_dir model_name in
  files w !! (root +:+ ".json") = None ->
  files w !! lock_path root = None ->
  files w !! fail_path root = None ->
  make_predictions audio_paths model_name output_dir w =
  match backend_outcome model_name audio_paths with
  | Ok predictions =>
      (Ok (Some (JArr (JStr <$> predictions))),
       mkWorld
         (delete (lock_path root)
            (<[root +:+ ".json" := json_dumps (JArr (JStr <$> predictions))]>
               (<[lock_path root := ""]> (files w))))
         (heap w)
         (trace w ++ [EvLock root; EvBackend model_name audio_paths]))
  | Err e =>
      (Err e,
       mkWorld
         (delete (lock_path root)
            (<[fail_path root := format_exc e]>
               (<[lock_path root := ""]> (files w))))
         (heap w)
         (trace w ++ [EvLock root; EvBackend model_name audio_paths;
                      EvFailCache root]))
  end.
Proof.
  intros root Hmiss Hl Hf. unfold make_predictions. fold (root_of output_dir model_name).
  fold root.
  unfold bind at 1. unfold path_exists at 1. rewrite Hmiss.
  rewrite bool_decide_eq_false_2 by (intros [? ?]; done).
  unfold with_CacheLock. rewrite CacheLock_enter_run, Hl, Hf.
  rewrite !bool_decide_eq_false_2 by (intros [? ?]; done). cbn [orb negb].
  unfold bind at 1. unfold try_except. rewrite transcribe_audio_run.
  destruct (backend_outcome model_name audio_paths) as [predictions|e].
  - py_unfold. by rewrite <- !app_assoc.
  - unfold fail_cache. py_unfold. by rewrite <- !app_assoc.
Qed.

(** C3: an attempt that misses the cache and gets the lock ends in one of
    two ways.  If the backend raises, make_predictions raises the same
    exception and the world it leaves behind already holds the failure
    marker with the traceback, written by fail_cache after the backend call,
    and no output artifact.  If the backend answers, the output artifact
    holds the predictions, fail_cache is not called and there is no failure
    marker.  Either way exactly one of the two artifacts exists. *)
Theorem C3_terminal_attempt
    (audio_paths : list string) (model_name output_dir : string) (w : World) :
  let root := root_of output_dir model_name in
  files w !! (root +:+ ".json") = None ->
  fst (CacheLock_enter root w) = Ok true ->
  let '(r, w') := make_predictions audio_paths model_name output_dir w in
  match backend_outcome model_name audio_paths with
  | Err e =>
      r = Err e /\
      files w' !! fail_path root = Some (format_exc e) /\
      files w' !! (root +:+ ".json") = None /\
      trace w' = trace w ++ [EvLock root; EvBackend model_name audio_paths;
                             EvFailCache root]
  | Ok predictions =>
      r = Ok (Some (JArr (JStr <$> predictions))) /\
      files w' !! (root +:+ ".json") =
        Some (json_dumps (JArr (JStr <$> predictions))) /\
      files w' !! fail_path root = None /\
      trace w' = trace w ++ [EvLock root; EvBackend model_name audio_paths]
  end.
Proof.
  intros root Hmiss Hheld. apply CacheLock_enter_held in Hheld as [Hl Hf].
  pose proof (make_predictions_held audio_paths model_name output_dir w
                Hmiss Hl Hf) as Hrun.
  fold root in Hrun. rewrite Hrun. clear Hrun.
  assert (lock_path root <> fail_path root) as Hlf by (by apply ext_ne).
  assert (lock_path root <> root +:+ ".json") as Hlj by (by apply ext_ne).
  assert (fail_path root <> root +:+ ".json") as Hfj by (by apply ext_ne).
  destruct (backend_outcome model_name audio_paths) as [predictions|e]; cbn.
  - split; [done|]. split; [|split; [|done]].
    + rewrite lookup_delete_ne by done. by rewrite lookup_insert_eq.
    + rewrite lookup_delete_ne by done.
      rewrite lookup_insert_ne by done. by rewrite lookup_insert_ne.
  - split; [done|]. split; [|split; [|done]].
    + rewrite lookup_delete_ne by done. by rewrite lookup_insert_eq.
    + rewrite lookup_delete_ne by done.
      rewrite lookup_insert_ne by done. by rewrite lookup_insert_ne.
Qed.
End transcription_facts.


(** ** The split into contexts and labels *)

Section organize_facts.
Import chatbot.

Lemma take_all_but_last {A} (l : list A) (x : A) :
  take (length (l ++ [x]) - 1) (l ++ [x]) = l.
Proof.
  rewrite length_app. cbn. replace (length l + 1 - 1) with (length l) by lia.
  by rewrite take_app_length.
Qed.

Lemma organize_nonempty cl :
  Forall (fun candl => messages candl <> []) cl ->
  forall labels contexts,
    exists ls cs,
      organize cl labels contexts = Ok (labels ++ ls, contexts ++ cs) /\
      Forall3 split_of cl ls cs.
Proof.
  induction 1 as [|candl cl Hne _ IH]; intros labels contexts.
  - exists [], []. cbn. rewrite !app_nil_r. split; [done|constructor].
  - cbn. destruct (last (messages candl)) as [m|] eqn:Hlast.
    + apply last_Some in Hlast as [front Hfront].
      destruct (IH (labels ++ [content m])
                  (contexts ++ [mkChat (take (length (messages candl) - 1)
                                          (messages candl))]))
        as (ls & cs & Hrun & Hall).
      exists (content m :: ls),
        (mkChat (take (length (messages candl) - 1) (messages candl)) :: cs).
      rewrite Hrun, <- !app_assoc. split; [done|].
      constructor; [|done]. exists m. cbn. split; [|done].
      rewrite Hfront at 1. by rewrite Hfront, take_all_but_last.
    + apply last_None in Hlast. done.
Qed.

Lemma organize_empty cl :
  Exists (fun candl => messages candl = []) cl ->
  forall labels contexts, organize cl labels contexts = Err IndexError.
Proof.
  induction 1 as [candl cl Hnil|candl cl _ IH]; intros labels contexts; cbn.
  - by rewrite Hnil.
  - destruct (last (messages candl)); [apply IH|done].
Qed.

(** C9: when every conversation has a message, the split succeeds; the
    labels and the contexts are as many as the conversations, the i-th label
    is the content of the last message of the i-th conversation and the i-th
    context is that conversation without its last message, so one message
    shorter.  A conversation without messages makes the split raise
    IndexError. *)
Theorem C9_labels_and_contexts (contexts_and_labels : list ChatMessages) :
  (Forall (fun candl => messages candl <> []) contexts_and_labels ->
   exists labels contexts,
     organize contexts_and_labels [] [] = Ok (labels, contexts) /\
     length labels = length contexts /\
     length contexts = length contexts_and_labels /\
     forall i candl,
       contexts_and_labels !! i = Some candl ->
       exists label context m,
         labels !! i = Some label /\
         contexts !! i = Some context /\
         last (messages candl) = Some m /\
         label = content m /\
         messages candl = messages context ++ [m] /\
         S (length (messages context)) = length (messages candl)) /\
  (Exists (fun candl => messages candl = []) contexts_and_labels ->
   organize contexts_and_labels [] [] = Err IndexError).
Proof.
  split.
  - intros Hne.
    destruct (organize_nonempty _ Hne [] []) as (ls & cs & Hrun & Hall).
    exists ls, cs. split; [done|].
    pose proof (Forall3_length_lm _ _ _ _ Hall) as Hlm.
    pose proof (Forall3_length_lr _ _ _ _ Hall) as Hlr.
    split; [lia|]. split; [lia|].
    intros i candl Hi.
    destruct (Forall3_lookup_l _ _ _ _ _ _ Hall Hi)
      as (label & context & Hl & Hc & m & Hm & Hlabel).
    exists label, context, m. repeat split; try done.
    + rewrite Hm. by rewrite last_snoc.
    + rewrite Hm, length_app. cbn. lia.
  - intros Hex. by apply organize_empty.
Qed.
End organize_facts.

(** ** The experiment settings *)

Section settings_facts.
Context `{chatbot_config.Config}.
Import chatbot.

Lemma override_dimension_Ok setting dim many single w w' :
  override_dimension setting dim many single w = (Ok tt, w') ->
  exists s d d',
    heap w !! setting = Some s /\
    dict_lookup dim (dimensions s) = Some d /\
    replaced many single d d' /\
    w' = mkWorld (files w)
           (<[setting := mkSpace (dict_set dim d' (dimensions s))]> (heap w))
           (trace w).
Proof.
  unfold override_dimension. intros Hrun.
  apply bind_Ok in Hrun as (d & w1 & Hget & Hset).
  unfold get_dimension in Hget.
  destruct (heap w !! setting) as [s|] eqn:Hs; [|done].
  unfold dict_get in Hget.
  destruct (dict_lookup dim (dimensions s)) as [d0|] eqn:Hd; [|done].
  apply ret_Ok in Hget as [-> ->].
  destruct d as [choices|value|lower upper]; [| |done];
    unfold set_dimension in Hset; rewrite Hs in Hset;
    injection Hset as <-; eexists s, _, _; (split; [done|]);
    (split; [exact Hd|]); (split; [|reflexivity]); done.
Qed.

Lemma update_one setting models single_model prompts single_prompt w w1 w' :
  override_dimension setting "model_preset" models single_model w = (Ok tt, w1) ->
  override_dimension setting "prompt_preset" prompts single_prompt w1 = (Ok tt, w') ->
  exists s s',
    heap w !! setting = Some s /\
    overridden models single_model prompts single_prompt s s' /\
    w' = mkWorld (files w) (<[setting := s']> (heap w)) (trace w).
Proof.
  intros Hm Hp.
  apply override_dimension_Ok in Hm as (s & dm & dm' & Hs & Hdm & Hrm & ->).
  apply override_dimension_Ok in Hp as (s1 & dp & dp' & Hs1 & Hdp & Hrp & ->).
  cbn in *. rewrite lookup_insert_eq in Hs1. injection Hs1 as <-. cbn in *.
  rewrite dict_lookup_set_ne in Hdp by done.
  exists s, (mkSpace (dict_set "prompt_preset" dp'
                        (dict_set "model_preset" dm' (dimensions s)))).
  split; [done|]. split.
  - repeat split; cbn.
    + rewrite dict_set_keys, dict_set_keys; [done|by eauto|].
      rewrite dict_lookup_set_ne by done. eauto.
    + intros dim Hm Hp. by rewrite !dict_lookup_set_ne.
    + exists dm, dm'. split; [done|]. split; [|done].
      rewrite dict_lookup_set_ne by done. apply dict_lookup_set_eq.
    + exists dp, dp'. split; [done|]. split; [|done].
      apply dict_lookup_set_eq.
  - by rewrite insert_insert_eq.
Qed.

Lemma update_settings_Ok settings models single_model prompts single_prompt :
  NoDup settings ->
  forall w w',
  update_settings settings models single_model prompts single_prompt w
    = (Ok tt, w') ->
  files w' = files w /\ trace w' = trace w /\
  (forall l, l ∉ settings -> heap w' !! l = heap w !! l) /\
  (forall l, l ∈ settings ->
     exists s s', heap w !! l = Some s /\ heap w' !! l = Some s' /\
       overridden models single_model prompts single_prompt s s').
Proof.
  induction 1 as [|setting rest Hnotin Hnodup IH]; intros w w' Hrun; cbn in Hrun.
  - apply ret_Ok in Hrun as [_ <-]. repeat split; try done.
    intros l Hl. by apply elem_of_nil in Hl.
  - apply bind_Ok in Hrun as ([] & w1 & Hm & Hrun).
    apply bind_Ok in Hrun as ([] & w2 & Hp & Hrest).
    destruct (update_one _ _ _ _ _ _ _ _ Hm Hp) as (s & s' & Hs & Hov & ->).
    destruct (IH _ _ Hrest) as (Hf & Ht & Hother & Hin). cbn in *.
    repeat split; try done.
    + intros l Hl. apply not_elem_of_cons in Hl as [Hne Hl].
      rewrite Hother by done. by rewrite lookup_insert_ne.
    + intros l Hl. apply elem_of_cons in Hl as [->|Hl].
      * exists s, s'. split; [done|]. split; [|done].
        rewrite Hother by done. by rewrite lookup_insert_eq.
      * destruct (Hin l Hl) as (s0 & s0' & Hs0 & Hs0' & Hov0).
        exists s0, s0'. split; [|done].
        rewrite lookup_insert_ne in Hs0; [done|]. by intros ->.
Qed.

Lemma copy_settings_Ok experiments :
  forall w settings w',
  (forall x preset, dict_lookup x chatbot_config.experiments = Some preset ->
     is_Some (heap w !! preset)) ->
  copy_settings experiments w = (Ok settings, w') ->
  files w' = files w /\ trace w' = trace w /\
  NoDup settings /\
  (forall l, l ∈ settings -> heap w !! l = None) /\
  (forall l, l ∉ settings -> heap w' !! l = heap w !! l) /\
  Forall2 (fun x setting =>
             exists preset s,
               dict_lookup x chatbot_config.experiments = Some preset /\
               heap w !! preset = Some s /\ heap w' !! setting = Some s)
    experiments settings.
Proof.
  induction experiments as [|x rest IH]; intros w settings w' Hwf Hrun;
    cbn in Hrun.
  - apply ret_Ok in Hrun as [<- <-]. repeat split; try done.
    + constructor.
    + intros l Hl. by apply elem_of_nil in Hl.
  - apply bind_Ok in Hrun as (preset & w0 & Hget & Hrun).
    unfold dict_get in Hget.
    destruct (dict_lookup x chatbot_config.experiments) as [p|] eqn:Hx; [|done].
    apply ret_Ok in Hget as [-> ->].
    apply bind_Ok in Hrun as (setting & w1 & Hcopy & Hrun).
    unfold deepcopy in Hcopy.
    destruct (heap w0 !! preset) as [s|] eqn:Hs; [|done].
    injection Hcopy as <- <-.
    apply bind_Ok in Hrun as (settings' & w2 & Hrest & Hret).
    apply ret_Ok in Hret as [<- ->].
    set (l' := fresh (dom (heap w0))) in *.
    assert (heap w0 !! l' = None) as Hfresh.
    { apply not_elem_of_dom. apply is_fresh. }
    apply IH in Hrest as (Hf & Ht & Hnodup & Hnew & Hother & Hall); cbn in *.
    2:{ intros x0 p0 Hx0. destruct (Hwf _ _ Hx0) as [s0 Hs0].
        exists s0. rewrite lookup_insert_ne; [done|]. intros ->. congruence. }
    assert (l' ∉ settings') as Hl'.
    { intros Hin. apply Hnew in Hin. by rewrite lookup_insert_eq in Hin. }
    repeat split; try done.
    + by constructor.
    + intros l Hl. apply elem_of_cons in Hl as [->|Hl]; [done|].
      apply Hnew in Hl. destruct (decide (l = l')) as [->|Hne]; [done|].
      by rewrite lookup_insert_ne in Hl.
    + intros l Hl. apply not_elem_of_cons in Hl as [Hne Hl].
      rewrite Hother by done. by rewrite lookup_insert_ne.
    + constructor.
      * exists preset, s. split; [done|]. split; [done|].
        rewrite Hother by done. by rewrite lookup_insert_eq.
      * eapply Forall2_impl; [exact Hall|].
        intros x0 l0 (p0 & s0 & Hx0 & Hp0 & Hl0). exists p0, s0.
        split; [done|]. split; [|done].
        rewrite lookup_insert_ne in Hp0; [done|].
        intros <-. destruct (Hwf _ _ Hx0) as [? ?]. congruence.
Qed.

(** C8: when the settings are built, every object that was on the heap
    before (the presets of chatbot_config.experiments among them) is
    unchanged; the setting for each selected experiment is a new object
    whose dimensions have the keys of the preset in the same order, agree
    with the preset on every dimension other than model_preset and
    prompt_preset, and hold for these two a Categorical over the provided
    models or prompts where the preset has a Categorical and a Constant of
    the single model or prompt where it has a Constant. *)
Theorem C8_override_leaves_the_rest
    (experiments : list string) (models : list string) (single_model : string)
    (prompts : list string) (single_prompt : string)
    (w : World) (settings : list positive) (w' : World) :
  (forall x preset, dict_lookup x chatbot_config.experiments = Some preset ->
     is_Some (heap w !! preset)) ->
  experiment_settings experiments models single_model prompts single_prompt w
    = (Ok settings, w') ->
  (forall obj s, heap w !! obj = Some s -> heap w' !! obj = Some s) /\
  Forall2 (fun x setting =>
             exists preset s s',
               dict_lookup x chatbot_config.experiments = Some preset /\
               heap w !! preset = Some s /\
               heap w' !! preset = Some s /\
               heap w' !! setting = Some s' /\
               overridden models single_model prompts single_prompt s s')
    experiments settings /\
  files w' = files w /\ trace w' = trace w.
Proof.
  intros Hwf Hrun. unfold experiment_settings in Hrun.
  apply bind_Ok in Hrun as (settings0 & w1 & Hcopy & Hrun).
  apply bind_Ok in Hrun as ([] & w2 & Hupd & Hret).
  apply ret_Ok in Hret as [-> ->].
  apply copy_settings_Ok in Hcopy
    as (Hf1 & Ht1 & Hnodup & Hnew & Hother1 & Hall); [|done].
  apply update_settings_Ok in Hupd as (Hf2 & Ht2 & Hother2 & Hin); [|done].
  assert (forall obj s, heap w !! obj = Some s -> heap w' !! obj = Some s)
    as Hframe.
  { intros obj s Hobj.
    assert (obj ∉ settings) as Hnot.
    { intros Hin'. apply Hnew in Hin'. congruence. }
    rewrite Hother2, Hother1; done. }
  split; [done|]. split; [|split; congruence].
  apply Forall2_same_length_lookup. split; [by eapply Forall2_length|].
  intros i x setting Hx Hsetting.
  destruct (Forall2_lookup_lr _ _ _ _ _ _ Hall Hx Hsetting)
    as (preset & s & Hpre & Hs & Hcopy).
  destruct (Hin setting) as (s0 & s' & Hs0 & Hs' & Hov).
  { by eapply list_elem_of_lookup_2. }
  exists preset, s, s'. rewrite Hcopy in Hs0. injection Hs0 as <-.
  split; [done|]. split; [done|]. split; [by apply Hframe|]. by split.
Qed.
End settings_facts.

(** ** The optimizer and the prediction loop *)

Section optimizer_facts.
Context `{CacheKey}.
Import cache_utils search_space exhaustive.

Lemma skip_claimed_length fs output_dir todo :
  length (skip_claimed fs output_dir todo) <= length todo.
Proof.
  induction todo as [|a rest IH]; cbn; [done|].
  destruct (claimed fs output_dir a); cbn; lia.
Qed.

Lemma skip_claimed_nil fs output_dir todo :
  skip_claimed fs output_dir todo = [] <->
  Forall (fun a => claimed fs output_dir a = true) todo.
Proof.
  induction todo as [|a rest IH]; cbn.
  - split; [constructor|done].
  - destruct (claimed fs output_dir a) eqn:Ha.
    + rewrite IH. split; [by constructor|]. by inversion 1.
    + split; [done|]. inversion 1; congruence.
Qed.

Lemma skip_claimed_head fs output_dir todo a rest :
  skip_claimed fs output_dir todo = a :: rest ->
  claimed fs output_dir a = false.
Proof.
  induction todo as [|b todo IH]; cbn; [done|].
  destruct (claimed fs output_dir b) eqn:Hb; [done|].
  by intros [= <- _].
Qed.

Lemma is_complete_run o output_dir include_in_progress w :
  exists b, is_complete o output_dir include_in_progress w = (Ok b, w).
Proof. unfold is_complete, get_valid_param_files. py_unfold. eauto. Qed.

Lemma get_parameters_run output_dir o w :
  exists next o',
    get_parameters output_dir o w = (Ok (next, o'), w) /\
    space o' = space o /\ num_trials o' = num_trials o /\
    (forall a, next = Some a ->
       length (cursor o') < length (cursor o) /\
       claimed (files w) output_dir a = false).
Proof.
  unfold get_parameters. destruct (budget_met o).
  - eexists _, _. split; [done|]. done.
  - pose proof (skip_claimed_length (files w) output_dir (cursor o)) as Hlen.
    destruct (skip_claimed (files w) output_dir (cursor o)) as [|a rest] eqn:Hskip.
    + eexists _, _. split; [done|]. done.
    + eexists _, _. split; [done|]. split; [done|]. split; [done|].
      intros ? [= <-]. cbn in *.
      split; [lia|]. by eapply skip_claimed_head.
Qed.

Lemma get_parameters_None output_dir o w :
  (exists o', get_parameters output_dir o w = (Ok (None, o'), w)) <->
  budget_met o = true \/
  Forall (fun a => claimed (files w) output_dir a = true) (cursor o).
Proof.
  unfold get_parameters. destruct (budget_met o).
  - split; [by left|]. intros _. by eexists.
  - rewrite <- skip_claimed_nil.
    destruct (skip_claimed (files w) output_dir (cursor o)) as [|a rest].
    + split; [by right|]. intros _. by eexists.
    + split; [by intros [? ?]|]. by intros [|].
Qed.
End optimizer_facts.

Section loop_facts.
Context `{JsonCodec} `{CacheKey} `{chatbot_config.Config}
        `{modeling.Modeling} `{Scoring} `{Repr} `{reporting_utils.Naming}.
Import cache_utils search_space exhaustive chatbot.

Variables (contexts : list ChatMessages) (labels : list string)
          (hf_inference_method predictions_dir : string).

Lemma iteration_cases optimizer w c optimizer' w' :
  iteration contexts labels hf_inference_method predictions_dir optimizer w
    = (Ok (c, optimizer'), w') ->
  space optimizer' = space optimizer /\
  num_trials optimizer' = num_trials optimizer /\
  match c with
  | BreakComplete =>
      w' = w /\ is_complete optimizer predictions_dir true w = (Ok true, w)
  | BreakExhausted =>
      w' = w /\
      is_complete optimizer predictions_dir true w = (Ok false, w) /\
      get_parameters predictions_dir optimizer w = (Ok (None, optimizer'), w)
  | Continue =>
      is_complete optimizer predictions_dir true w = (Ok false, w) /\
      length (cursor optimizer') < length (cursor optimizer)
  end.
Proof.
  unfold iteration. intros Hrun.
  apply bind_Ok in Hrun as (complete & w0 & Hc & Hrun).
  destruct (is_complete_run optimizer predictions_dir true w) as [b Hb].
  rewrite Hb in Hc. injection Hc as <- <-.
  destruct b.
  { apply ret_Ok in Hrun as [[= <- <-] <-]. done. }
  apply bind_Ok in Hrun as ([next o1] & w1 & Hget & Hrun).
  destruct (get_parameters_run predictions_dir optimizer w)
    as (next0 & o0 & Hget0 & Hspace & Hbudget & Hsome).
  rewrite Hget0 in Hget. injection Hget as -> -> <-.
  destruct next as [parameters|].
  2:{ apply ret_Ok in Hrun as [[= <- <-] <-]. done. }
  destruct (Hsome _ eq_refl) as [Hlt _].
  do 6 (apply bind_Ok in Hrun as (? & ? & _ & Hrun)).
  apply bind_Ok in Hrun as (id_and_predictions & ? & _ & Hrun).
  destruct id_and_predictions as [[id preds]|].
  - repeat (apply bind_Ok in Hrun as (? & ? & _ & Hrun)).
    apply ret_Ok in Hrun as [[= <- <-] _]. done.
  - repeat (apply bind_Ok in Hrun as (? & ? & _ & Hrun)).
    apply ret_Ok in Hrun as [[= <- <-] _]. done.
Qed.

Lemma prediction_loop_S fuel optimizer w :
  prediction_loop (S fuel) contexts labels hf_inference_method predictions_dir
    optimizer w =
  match iteration contexts labels hf_inference_method predictions_dir
          optimizer w with
  | (Ok (Continue, optimizer'), w') =>
      prediction_loop fuel contexts labels hf_inference_method
        predictions_dir optimizer' w'
  | (Ok (exit, _), w') => Some (Ok exit, w')
  | (Err e, w') => Some (Err e, w')
  end.
Proof. reflexivity. Qed.

Lemma prediction_loop_terminates fuel :
  forall optimizer w,
    length (cursor optimizer) < fuel ->
    exists r w',
      prediction_loop fuel contexts labels hf_inference_method predictions_dir
        optimizer w = Some (r, w').
Proof.
  induction fuel as [|fuel IH]; intros optimizer w Hlt; [lia|].
  rewrite prediction_loop_S.
  destruct (iteration contexts labels hf_inference_method predictions_dir
              optimizer w) as [[[c o']|e] w1] eqn:Hit; [|eauto].
  destruct c; [|eauto..].
  apply iteration_cases in Hit as (_ & _ & _ & Hdec). apply IH. lia.
Qed.

Lemma skip_claimed_suffix fs todo :
  skip_claimed fs predictions_dir todo `suffix_of` todo.
Proof.
  induction todo as [|a rest IH]; cbn; [done|].
  destruct (claimed fs predictions_dir a); [|done].
  by apply suffix_cons_r.
Qed.

Lemma get_parameters_Some optimizer w a optimizer' w' :
  get_parameters predictions_dir optimizer w = (Ok (Some a, optimizer'), w') ->
  w' = w /\ budget_met optimizer = false /\
  space optimizer' = space optimizer /\
  num_trials optimizer' = num_trials optimizer /\
  trials optimizer' = S (trials optimizer) /\
  claimed (files w) predictions_dir a = false /\
  a :: cursor optimizer' `suffix_of` cursor optimizer.
Proof.
  unfold get_parameters. destruct (budget_met optimizer); [done|].
  pose proof (skip_claimed_suffix (files w) (cursor optimizer)) as Hsuffix.
  destruct (skip_claimed (files w) predictions_dir (cursor optimizer))
    as [|b rest] eqn:Hskip; [done|].
  intros [= <- <- <-]. cbn. repeat (split; [done|]).
  split; [by eapply skip_claimed_head|done].
Qed.

Lemma iteration_complete optimizer w :
  is_complete optimizer predictions_dir true w = (Ok true, w) ->
  iteration contexts labels hf_inference_method predictions_dir optimizer w
    = (Ok (BreakComplete, optimizer), w).
Proof. intros Hc. unfold iteration. by rewrite (bind_run _ _ _ _ _ Hc). Qed.

Lemma iteration_exhausted optimizer optimizer' w :
  is_complete optimizer predictions_dir true w = (Ok false, w) ->
  get_parameters predictions_dir optimizer w = (Ok (None, optimizer'), w) ->
  iteration contexts labels hf_inference_method predictions_dir optimizer w
    = (Ok (BreakExhausted, optimizer'), w).
Proof.
  intros Hc Hg. unfold iteration.
  rewrite (bind_run _ _ _ _ _ Hc). by rewrite (bind_run _ _ _ _ _ Hg).
Qed.

Lemma iteration_continue optimizer w optimizer' w' :
  iteration contexts labels hf_inference_method predictions_dir optimizer w
    = (Ok (Continue, optimizer'), w') ->
  is_complete optimizer predictions_dir true w = (Ok false, w) /\
  exists parameters,
    get_parameters predictions_dir optimizer w
      = (Ok (Some parameters, optimizer'), w).
Proof.
  unfold iteration. intros Hrun.
  apply bind_Ok in Hrun as (complete & w0 & Hc & Hrun).
  destruct (is_complete_run optimizer predictions_dir true w) as [b Hb].
  rewrite Hb in Hc. injection Hc as <- <-.
  destruct b.
  { by apply ret_Ok in Hrun as [[= ] _]. }
  split; [done|].
  apply bind_Ok in Hrun as ([next o1] & w1 & Hget & Hrun).
  destruct (get_parameters_run predictions_dir optimizer w)
    as (next0 & o0 & Hget0 & _).
  rewrite Hget0 in Hget. injection Hget as -> -> <-.
  destruct next as [parameters|].
  2:{ by apply ret_Ok in Hrun as [[= ] _]. }
  exists parameters. rewrite Hget0. do 3 f_equal.
  do 6 (apply bind_Ok in Hrun as (? & ? & _ & Hrun)).
  apply bind_Ok in Hrun as (id_and_predictions & ? & _ & Hrun).
  destruct id_and_predictions as [[id preds]|].
  - repeat (apply bind_Ok in Hrun as (? & ? & _ & Hrun)).
    by apply ret_Ok in Hrun as [[= <-] _].
  - repeat (apply bind_Ok in Hrun as (? & ? & _ & Hrun)).
    by apply ret_Ok in Hrun as [[= <-] _].
Qed.

Lemma after_passes_S n optimizer w :
  after_passes contexts labels hf_inference_method predictions_dir (S n)
    optimizer w =
  match iteration contexts labels hf_inference_method predictions_dir
          optimizer w with
  | (Ok (Continue, optimizer'), w') =>
      after_passes contexts labels hf_inference_method predictions_dir n
        optimizer' w'
  | _ => None
  end.
Proof. reflexivity. Qed.

(** What the passes that went on have done to the optimizer: each of them
    took one assignment from the cursor. *)
Lemma after_passes_reached n :
  forall optimizer w o w1,
    after_passes contexts labels hf_inference_method predictions_dir n
      optimizer w = Some (o, w1) ->
    space o = space optimizer /\ num_trials o = num_trials optimizer /\
    trials o = trials optimizer + n /\
    cursor o `suffix_of` cursor optimizer /\
    length (cursor o) + n <= length (cursor optimizer).
Proof.
  induction n as [|n IH]; intros optimizer w o w1 Hreach.
  { injection Hreach as <- <-. repeat split; [lia|done|lia]. }
  rewrite after_passes_S in Hreach.
  destruct (iteration contexts labels hf_inference_method predictions_dir
              optimizer w) as [[[c o1]|e] w0] eqn:Hit; [|done].
  destruct c; [|done..].
  apply iteration_continue in Hit as (_ & parameters & Hget).
  apply get_parameters_Some in Hget
    as (_ & _ & Hspace & Hbudget & Htrials & _ & Hsuffix).
  destruct (IH _ _ _ _ Hreach) as (Hs & Hb & Ht & Hsuf & Hlen).
  split; [congruence|]. split; [congruence|]. split; [lia|].
  pose proof (suffix_length _ _ Hsuffix) as Hlen1. cbn in Hlen1.
  split; [|lia].
  etrans; [exact Hsuf|]. etrans; [|exact Hsuffix]. by apply suffix_cons_r.
Qed.

(** A loop that is still running after [n] passes goes on from the
    optimizer and the world they left. *)
Lemma prediction_loop_after_passes n :
  forall fuel optimizer w o w1,
    after_passes contexts labels hf_inference_method predictions_dir n
      optimizer w = Some (o, w1) ->
    prediction_loop (n + fuel) contexts labels hf_inference_method
      predictions_dir optimizer w =
    prediction_loop fuel contexts labels hf_inference_method predictions_dir
      o w1.
Proof.
  induction n as [|n IH]; intros fuel optimizer w o w1 Hreach.
  { by injection Hreach as <- <-. }
  rewrite after_passes_S in Hreach. cbn [Nat.add]. rewrite prediction_loop_S.
  destruct (iteration contexts labels hf_inference_method predictions_dir
              optimizer w) as [[[c o1]|e] w0] eqn:Hit; [|done].
  destruct c; [|done..]. by apply IH.
Qed.

Lemma prediction_loop_exit fuel :
  forall optimizer w c w',
    prediction_loop fuel contexts labels hf_inference_method predictions_dir
      optimizer w = Some (Ok c, w') ->
    exists n o,
      n < fuel /\
      after_passes contexts labels hf_inference_method predictions_dir n
        optimizer w = Some (o, w') /\
      ((c = BreakComplete /\
        is_complete o predictions_dir true w' = (Ok true, w')) \/
       (c = BreakExhausted /\
        is_complete o predictions_dir true w' = (Ok false, w') /\
        exists o', get_parameters predictions_dir o w' = (Ok (None, o'), w'))).
Proof.
  induction fuel as [|fuel IH]; intros optimizer w c w' Hrun; [done|].
  rewrite prediction_loop_S in Hrun.
  destruct (iteration contexts labels hf_inference_method predictions_dir
              optimizer w) as [[[c0 o1]|e] w1] eqn:Hit; [|done].
  destruct c0.
  - destruct (IH _ _ _ _ Hrun) as (n & o & Hn & Hreach & Hexit).
    exists (S n), o. split; [lia|]. split; [|done].
    by rewrite after_passes_S, Hit.
  - injection Hrun as <- <-.
    apply iteration_cases in Hit as (_ & _ & -> & Hc).
    exists 0, optimizer. split; [lia|]. split; [done|]. by left.
  - injection Hrun as <- <-.
    apply iteration_cases in Hit as (_ & _ & -> & Hc & Hg).
    exists 0, optimizer. split; [lia|]. split; [done|]. right. eauto.
Qed.

(** C5: the prediction loop of a new optimizer ends within as many passes
    as the search space has assignments, plus one, whatever the run adapter
    does (an exception of the body ends it too).  When it ends without an
    exception it has made [n] passes that went on, at most one for each
    assignment; the optimizer it has then reached has handed out [n]
    assignments and holds a rest of the enumeration, and at this optimizer
    either is_complete(predictions_dir, include_in_progress=True) is true
    or get_parameters returns None.  Conversely, as soon as the optimizer
    the loop has reached is complete, or is not and get_parameters returns
    None, the loop ends there.  And get_parameters returns None exactly
    when the trial budget is met or no unclaimed assignment is left in the
    enumeration. *)
Theorem C5_prediction_loop_finite
    (space : CompositeSearchSpace) (budget : option nat) (w : World) :
  (forall fuel, length (enumerate space) < fuel ->
     exists r w',
       prediction_loop fuel contexts labels hf_inference_method
         predictions_dir (new space budget) w = Some (r, w')) /\
  (forall fuel c w',
     prediction_loop fuel contexts labels hf_inference_method
       predictions_dir (new space budget) w = Some (Ok c, w') ->
     exists n o,
       n < fuel /\ n <= length (enumerate space) /\
       after_passes contexts labels hf_inference_method predictions_dir n
         (new space budget) w = Some (o, w') /\
       exhaustive.space o = space /\ num_trials o = budget /\
       trials o = n /\ cursor o `suffix_of` enumerate space /\
       ((c = BreakComplete /\
         is_complete o predictions_dir true w' = (Ok true, w')) \/
        (c = BreakExhausted /\
         is_complete o predictions_dir true w' = (Ok false, w') /\
         exists o', get_parameters predictions_dir o w'
                      = (Ok (None, o'), w')))) /\
  (forall n o w1,
     after_passes contexts labels hf_inference_method predictions_dir n
       (new space budget) w = Some (o, w1) ->
     forall fuel, n < fuel ->
       (is_complete o predictions_dir true w1 = (Ok true, w1) ->
        prediction_loop fuel contexts labels hf_inference_method
          predictions_dir (new space budget) w
        = Some (Ok BreakComplete, w1)) /\
       (is_complete o predictions_dir true w1 = (Ok false, w1) ->
        (exists o', get_parameters predictions_dir o w1
                      = (Ok (None, o'), w1)) ->
        prediction_loop fuel contexts labels hf_inference_method
          predictions_dir (new space budget) w
        = Some (Ok BreakExhausted, w1))) /\
  (forall o w0,
     (exists o', get_parameters predictions_dir o w0 = (Ok (None, o'), w0)) <->
     budget_met o = true \/
     Forall (fun a => claimed (files w0) predictions_dir a = true) (cursor o)).
Proof.
  split; [|split; [|split]].
  - intros fuel Hfuel. by apply prediction_loop_terminates.
  - intros fuel c w' Hrun.
    apply prediction_loop_exit in Hrun as (n & o & Hn & Hreach & Hexit).
    destruct (after_passes_reached _ _ _ _ _ Hreach)
      as (Hspace & Hbudget & Htrials & Hsuffix & Hlen).
    exists n, o. cbn in *. repeat (split; [done || lia|]). done.
  - intros n o w1 Hreach fuel Hfuel.
    replace fuel with (n + S (fuel - S n)) by lia.
    rewrite (prediction_loop_after_passes _ _ _ _ _ _ Hreach).
    rewrite prediction_loop_S. split.
    + intros Hc. by rewrite (iteration_complete _ _ Hc).
    + intros Hc [o' Hg]. by rewrite (iteration_exhausted _ _ _ Hc Hg).
  - intros o w0. apply get_parameters_None.
Qed.

(** *** A skipped run *)

Lemma iteration_skip optimizer optimizer' w w2 parameters
    prompt_preset model_preset temperature max_tokens top_p context_length :
  is_complete optimizer predictions_dir true w = (Ok false, w) ->
  get_parameters predictions_dir optimizer w
    = (Ok (Some parameters, optimizer'), w) ->
  dict_lookup "prompt_preset" parameters = Some prompt_preset ->
  dict_lookup "model_preset" parameters = Some model_preset ->
  dict_lookup "temperature" parameters = Some temperature ->
  dict_lookup "max_tokens" parameters = Some max_tokens ->
  dict_lookup "top_p" parameters = Some top_p ->
  dict_lookup "context_length" parameters = Some context_length ->
  modeling.make_predictions contexts prompt_preset model_preset temperature
    max_tokens top_p context_length predictions_dir hf_inference_method w
    = (Ok None, w2) ->
  iteration contexts labels hf_inference_method predictions_dir optimizer w =
  (Ok (Continue, optimizer'),
   mkWorld (files w2) (heap w2)
     (trace w2 ++ [EvPrint ("*** Skipped run for parameters=" +:+
                            repr_dict parameters +:+ " ***")])).
Proof.
  intros Hc Hg H1' H2' H3' H4' H5' H6' Hmp. unfold iteration.
  rewrite (bind_run _ _ _ _ _ Hc). rewrite (bind_run _ _ _ _ _ Hg).
  rewrite (bind_run _ _ _ _ _ (dict_get_run _ _ _ _ H1')).
  rewrite (bind_run _ _ _ _ _ (dict_get_run _ _ _ _ H2')).
  rewrite (bind_run _ _ _ _ _ (dict_get_run _ _ _ _ H3')).
  rewrite (bind_run _ _ _ _ _ (dict_get_run _ _ _ _ H4')).
  rewrite (bind_run _ _ _ _ _ (dict_get_run _ _ _ _ H5')).
  rewrite (bind_run _ _ _ _ _ (dict_get_run _ _ _ _ H6')).
  rewrite (bind_run _ _ _ _ _ Hmp). reflexivity.
Qed.

(** *** The metric *)

Lemma run_or_read_eval_hit id predictions w stored :
  files w !! eval_path predictions_dir id = Some stored ->
  run_or_read_eval contexts labels predictions_dir id predictions w =
  (match first_line stored with
   | None => Err StopIteration
   | Some line =>
       match parse_float line with
       | Some x => Ok x
       | None => Err (ValueError "could not convert string to float")
       end
   end, w).
Proof.
  intros Hfile. unfold run_or_read_eval, read_eval. py_unfold.
  rewrite bool_decide_eq_true_2 by (rewrite Hfile; eauto). rewrite Hfile.
  destruct (first_line stored) as [line|]; [|done].
  by destruct (parse_float line).
Qed.


(** *** At most one computation of the metric per run *)








End loop_facts.

(** ** The reporting collection *)

Section reporting_facts.
Context `{JsonCodec} `{CacheKey} `{chatbot_config.Config}
        `{modeling.Modeling} `{Scoring} `{Repr} `{reporting_utils.Naming}.
Import cache_utils search_space chatbot.

Lemma load_run_run my_space root run w :
  run_of (files w) my_space root run ->
  load_run my_space (param_path root) w = (Ok run, w).
Proof.
  intros (pc & oc & pj & oj & Hp & Hpj & Ho & Hoj & ->).
  unfold load_run, param_path. rewrite endswith_app. cbn [negb].
  change 4 with (String.length ".zbp"). rewrite drop_last_app.
  unfold param_path, output_path in *.
  py_unfold. rewrite Hp, Hpj. cbn. by rewrite Ho, Hoj.
Qed.

Lemma load_runs_run my_space w roots runs :
  Forall2 (run_of (files w) my_space) roots runs ->
  forall results,
    load_runs my_space (param_path <$> roots) results w
      = (Ok (results ++ runs), w).
Proof.
  induction 1 as [|root run roots runs Hrun _ IH]; intros results; cbn.
  - by rewrite app_nil_r.
  - rewrite (bind_run _ _ _ _ _ (load_run_run _ _ _ _ Hrun)).
    rewrite IH. by rewrite <- app_assoc.
Qed.

Lemma insert_run_perm x sorted : insert_run x sorted ≡ₚ x :: sorted.
Proof.
  induction sorted as [|y rest IH]; cbn; [done|].
  case_bool_decide; [done|]. rewrite IH. apply Permutation_swap.
Qed.

Lemma sort_by_name_perm results : sort_by_name results ≡ₚ results.
Proof.
  induction results as [|x rest IH]; cbn; [done|].
  rewrite insert_run_perm. by rewrite IH.
Qed.

Lemma insert_run_sorted x sorted :
  StronglySorted by_name sorted -> StronglySorted by_name (insert_run x sorted).
Proof.
  induction 1 as [|y rest Hsorted IH Hall]; cbn.
  - repeat constructor.
  - case_bool_decide as Hle.
    + constructor; [by constructor|]. constructor; [done|].
      eapply Forall_impl; [exact Hall|]. intros z Hz. unfold by_name in *.
      by etrans.
    + constructor; [done|]. rewrite insert_run_perm. constructor; [|done].
      unfold by_name. destruct (total String.le (name x) (name y)); done.
Qed.

Lemma sort_by_name_sorted results :
  StronglySorted by_name (sort_by_name results).
Proof.
  induction results as [|x rest IH]; cbn; [constructor|].
  by apply insert_run_sorted.
Qed.

(** C7: the parameter files gathered with include_in_progress=False belong
    to distinct completed entries, none of them in progress; when their
    artifacts are valid JSON the collection is built without an exception,
    it is a rearrangement of the records of these entries, one for each, with
    the loaded parameters, the loaded predictions and the derived name, it is
    sorted by name in ascending order, and it is what the visualization
    receives. *)
Theorem C7_reporting_collection
    (my_space : CompositeSearchSpace) (predictions_dir : string)
    (labels : list string) (w : World) :
  (forall root stored,
     root ∈ space_roots my_space predictions_dir ->
     files w !! param_path root = Some stored \/
     files w !! output_path root = Some stored ->
     is_Some (json_loads stored)) ->
  exists roots runs results w',
    get_valid_param_files my_space predictions_dir false w
      = (Ok (param_path <$> roots), w) /\
    NoDup roots /\
    Forall (fun root => completed (files w) root = true /\
                        in_progress (files w) root = false) roots /\
    Forall2 (run_of (files w) my_space) roots runs /\
    collect_results my_space predictions_dir w = (Ok results, w') /\
    files w' = files w /\
    results ≡ₚ runs /\
    StronglySorted by_name results /\
    (results <- collect_results my_space predictions_dir ;;
     visualize labels results) w
      = (Ok tt, mkWorld (files w') (heap w')
                  (trace w' ++ [EvVisualize labels results])).
Proof.
  intros Hjson.
  set (keep := fun root : string =>
         has_file (files w) (param_path root) &&
         (completed (files w) root || (false && in_progress (files w) root))).
  set (roots := List.filter keep (space_roots my_space predictions_dir)).
  assert (forall root, root ∈ roots ->
            root ∈ space_roots my_space predictions_dir /\
            has_file (files w) (param_path root) = true /\
            completed (files w) root = true) as Hroots.
  { intros root Hin. apply list_elem_of_In, filter_In in Hin as [Hin Hkeep].
    apply list_elem_of_In in Hin. unfold keep in Hkeep.
    apply andb_true_iff in Hkeep as [Hp Hc]. rewrite orb_false_r in Hc. done. }
  assert (exists runs, Forall2 (run_of (files w) my_space) roots runs)
    as [runs Hruns].
  { clearbody roots. clear keep. induction roots as [|root roots IH].
    - exists []. constructor.
    - destruct IH as [runs Hruns].
      { intros r Hr. apply Hroots. by right. }
      destruct (Hroots root) as (Hin & Hp & Hc); [by left|].
      unfold completed, has_file in *.
      apply bool_decide_eq_true_1 in Hp as [pc Hpc].
      apply bool_decide_eq_true_1 in Hc as [oc Hoc].
      destruct (Hjson root pc Hin (or_introl Hpc)) as [pj Hpj].
      destruct (Hjson root oc Hin (or_intror Hoc)) as [oj Hoj].
      eexists (_ :: runs). constructor; [|done].
      exists pc, oc, pj, oj. done. }
  exists roots, runs, (sort_by_name runs).
  assert (get_valid_param_files my_space predictions_dir false w
            = (Ok (param_path <$> roots), w)) as Hvalid by done.
  assert (exists w',
            collect_results my_space predictions_dir w
              = (Ok (sort_by_name runs), w') /\ files w' = files w)
    as (w' & Hcollect & Hfiles).
  { unfold collect_results. rewrite (bind_run _ _ _ _ _ Hvalid).
    destruct chatbot_config.num_trials as [[|n]|].
    - eexists. rewrite (bind_run _ _ w tt w) by done.
      rewrite (bind_run _ _ _ _ _ (load_runs_run _ _ _ _ Hruns [])). done.
    - case_bool_decide.
      + eexists. unfold log at 1.
        erewrite (bind_run _ _ w tt) by done.
        erewrite bind_run; [|by apply load_runs_run]. done.
      + eexists. rewrite (bind_run _ _ w tt w) by done.
        rewrite (bind_run _ _ _ _ _ (load_runs_run _ _ _ _ Hruns [])). done.
    - eexists. rewrite (bind_run _ _ w tt w) by done.
      rewrite (bind_run _ _ _ _ _ (load_runs_run _ _ _ _ Hruns [])). done. }
  exists w'. split; [done|]. split.
  { apply NoDup_ListNoDup, List.NoDup_filter, NoDup_ListNoDup, NoDup_remove_dups. }
  split.
  { apply Forall_forall. intros root Hin.
    destruct (Hroots root Hin) as (_ & _ & Hc). split; [done|].
    unfold in_progress. by rewrite Hc, andb_false_r. }
  split; [done|]. split; [done|]. split; [done|].
  split; [apply sort_by_name_perm|]. split; [apply sort_by_name_sorted|].
  by rewrite (bind_run _ _ _ _ _ Hcollect).
Qed.
End reporting_facts.

(** ** Contention, failure and the sweep *)

Section skip_facts.
Context `{JsonCodec} `{CacheKey} `{Traceback} `{Whisper}
        `{chatbot_config.Config} `{modeling.Modeling} `{Scoring} `{Repr}
        `{reporting_utils.Naming}.
Import cache_utils search_space exhaustive.

Lemma backend_calls_lock tr root :
  backend_calls (tr ++ [EvLock root]) = backend_calls tr.
Proof. unfold backend_calls. rewrite List.filter_app. cbn. apply app_nil_r. Qed.

Lemma make_predictions_failed audio_paths model_name output_dir diagnostic w :
  files w !! fail_path (root_of output_dir model_name) = Some diagnostic ->
  files w !! (root_of output_dir model_name +:+ ".json") = None ->
  transcription.make_predictions audio_paths model_name output_dir w =
  (Ok None, mkWorld (files w) (heap w)
              (trace w ++ [EvLock (root_of output_dir model_name)])).
Proof.
  intros Hfail Hmiss. apply make_predictions_refused; [done|].
  rewrite CacheLock_enter_run, Hfail.
  rewrite (bool_decide_eq_true_2 (is_Some (Some diagnostic))) by eauto.
  by rewrite orb_true_r.
Qed.

Lemma make_predictions_failed_iter audio_paths model_name output_dir
    diagnostic w passes :
  files w !! fail_path (root_of output_dir model_name) = Some diagnostic ->
  files w !! (root_of output_dir model_name +:+ ".json") = None ->
  let w' := Nat.iter passes
              (fun w0 => snd (transcription.make_predictions audio_paths
                                model_name output_dir w0)) w in
  files w' = files w /\ backend_calls (trace w') = backend_calls (trace w).
Proof.
  intros Hfail Hmiss. induction passes as [|passes [IHf IHt]]; [done|].
  rewrite Nat.iter_succ.
  rewrite (make_predictions_failed _ _ _ diagnostic); cbn [snd files trace].
  - by rewrite backend_calls_lock.
  - by rewrite IHf.
  - by rewrite IHf.
Qed.

(** C2: with no output artifact and a lock that cannot be acquired (it is
    held by somebody else), make_predictions returns None; the only event
    is the attempt on the lock (no backend call) and no file changes.  In the sweep driver a None
    from the run adapter is no exception: the pass through the loop body
    prints the skip message and the loop goes on with the next
    assignment. *)
Theorem C2_lock_contention_is_a_skip :
  (forall audio_paths model_name output_dir w,
     files w !! (root_of output_dir model_name +:+ ".json") = None ->
     fst (CacheLock_enter (root_of output_dir model_name) w) = Ok false ->
     transcription.make_predictions audio_paths model_name output_dir w =
     (Ok None, mkWorld (files w) (heap w)
                 (trace w ++ [EvLock (root_of output_dir model_name)]))) /\
  (forall contexts labels hf_inference_method predictions_dir fuel
          optimizer optimizer' w w2 parameters
          prompt_preset model_preset temperature max_tokens top_p
          context_length,
     is_complete optimizer predictions_dir true w = (Ok false, w) ->
     get_parameters predictions_dir optimizer w
       = (Ok (Some parameters, optimizer'), w) ->
     dict_lookup "prompt_preset" parameters = Some prompt_preset ->
     dict_lookup "model_preset" parameters = Some model_preset ->
     dict_lookup "temperature" parameters = Some temperature ->
     dict_lookup "max_tokens" parameters = Some max_tokens ->
     dict_lookup "top_p" parameters = Some top_p ->
     dict_lookup "context_length" parameters = Some context_length ->
     modeling.make_predictions contexts prompt_preset model_preset
       temperature max_tokens top_p context_length predictions_dir
       hf_inference_method w = (Ok None, w2) ->
     let skipped :=
       mkWorld (files w2) (heap w2)
         (trace w2 ++ [EvPrint ("*** Skipped run for parameters=" +:+
                                repr_dict parameters +:+ " ***")]) in
     chatbot.iteration contexts labels hf_inference_method predictions_dir
       optimizer w = (Ok (chatbot.Continue, optimizer'), skipped) /\
     chatbot.prediction_loop (S fuel) contexts labels hf_inference_method
       predictions_dir optimizer w =
     chatbot.prediction_loop fuel contexts labels hf_inference_method
       predictions_dir optimizer' skipped).
Proof.
  split.
  - intros audio_paths model_name output_dir w Hmiss Hlock.
    by apply make_predictions_refused.
  - intros contexts labels hf_inference_method predictions_dir fuel
      optimizer optimizer' w w2 parameters prompt_preset model_preset
      temperature max_tokens top_p context_length
      Hc Hg Hpp Hmp Ht Hmt Htp Hcl Hnone skipped.
    pose proof (iteration_skip contexts labels hf_inference_method
                  predictions_dir optimizer optimizer' w w2 parameters
                  prompt_preset model_preset temperature max_tokens top_p
                  context_length Hc Hg Hpp Hmp Ht Hmt Htp Hcl Hnone) as Hit.
    split; [exact Hit|]. rewrite prediction_loop_S. by rewrite Hit.
Qed.

(** C4: once the failure marker of an assignment is on disk and its output
    artifact is not, every later attempt of make_predictions on it returns
    None without a backend call and leaves the files as they are, the
    optimizer never hands the assignment out again, and its parameter file
    is not among the files from which the reporting collection is built. *)
Theorem C4_failed_entry_is_terminal
    (audio_paths : list string) (model_name output_dir diagnostic : string)
    (w : World) :
  files w !! fail_path (root_of output_dir model_name) = Some diagnostic ->
  files w !! (root_of output_dir model_name +:+ ".json") = None ->
  (forall passes,
     let w' := Nat.iter passes
                 (fun w0 => snd (transcription.make_predictions audio_paths
                                   model_name output_dir w0)) w in
     fst (transcription.make_predictions audio_paths model_name output_dir w')
       = Ok None /\
     files w' = files w /\
     backend_calls (trace w') = backend_calls (trace w)) /\
  (forall optimizer optimizer' assignment,
     get_parameters output_dir optimizer w
       = (Ok (Some assignment, optimizer'), w) ->
     get_cache_path output_dir assignment <> root_of output_dir model_name) /\
  (forall my_space param_files,
     get_valid_param_files my_space output_dir false w = (Ok param_files, w) ->
     param_path (root_of output_dir model_name) ∉ param_files).
Proof.
  intros Hfail Hmiss. split; [|split].
  - intros passes w'.
    destruct (make_predictions_failed_iter audio_paths model_name output_dir
                diagnostic w passes Hfail Hmiss) as [Hf Ht].
    fold w' in Hf, Ht. split; [|done].
    rewrite (make_predictions_failed _ _ _ diagnostic); [done| |];
      by rewrite Hf.
  - intros optimizer optimizer' assignment Hget Heq.
    destruct (get_parameters_run output_dir optimizer w)
      as (next & o' & Hrun & _ & _ & Hsome).
    rewrite Hrun in Hget. injection Hget as -> ->.
    destruct (Hsome _ eq_refl) as [_ Hclaimed].
    unfold claimed in Hclaimed. rewrite Heq in Hclaimed.
    apply orb_false_iff in Hclaimed as [_ Hfailed].
    unfold failed, completed, has_file, output_path in Hfailed.
    rewrite Hfail, Hmiss in Hfailed.
    rewrite (bool_decide_eq_true_2 (is_Some (Some diagnostic))) in Hfailed
      by eauto.
    rewrite bool_decide_eq_false_2 in Hfailed by (intros [? ?]; done).
    done.
  - intros my_space param_files Hvalid Hin.
    unfold get_valid_param_files in Hvalid. injection Hvalid as <-.
    apply list_elem_of_fmap in Hin as (root & Heq & Hin).
    apply path_ext_inj in Heq as [<- _]; [|done].
    apply list_elem_of_In, filter_In in Hin as [_ Hkeep].
    apply andb_true_iff in Hkeep as [_ Hc]. rewrite orb_false_r in Hc.
    unfold completed, has_file, output_path in Hc. rewrite Hmiss in Hc.
    rewrite bool_decide_eq_false_2 in Hc by (intros [? ?]; done). done.
Qed.

(** C10: with both skip flags the program ends with ValueError and nothing
    else has happened (the world is as it was, chatbot_main did not run);
    otherwise it is chatbot_main, with each phase on exactly when its skip
    flag is off. *)
Theorem C10_skip_flags (fuel : nat) (args : chatbot.Args) (w : World) :
  (chatbot.skip_prediction args = true /\
   chatbot.skip_visualization args = true ->
   chatbot.main fuel args w =
   Some (Err (ValueError
     "Cannot specify both --skip-prediction and --skip-visualization."), w)) /\
  (chatbot.skip_prediction args = false \/
   chatbot.skip_visualization args = false ->
   chatbot.main fuel args w =
   chatbot.chatbot_main fuel (chatbot.models args) (chatbot.single_model args)
     (chatbot.prompts args) (chatbot.single_prompt args)
     (chatbot.experiments args) (chatbot.hf_inference_method args)
     (chatbot.results_dir args) (negb (chatbot.skip_prediction args))
     (negb (chatbot.skip_visualization args)) w).
Proof.
  unfold chatbot.main. split.
  - intros [-> ->]. done.
  - intros [-> | ->]; [done|]. by rewrite andb_false_r.
Qed.
End skip_facts.

(** ** Runs of the sample collaborators *)

Section sample_runs.
Local Existing Instances sample.codec sample.key sample.traceback
  sample.whisper sample.config sample.chat_modeling sample.scoring
  sample.repr sample.naming.
Import cache_utils search_space exhaustive.

Lemma C1_cache_hit_witness :
  transcription.make_predictions ["a.wav"] "tiny" "results"
    (sample.world_of [("results/tiny.json", "hello"); ("results/tiny.lock", "");
                      ("results/tiny.fail", "Traceback")]) =
  (Ok (Some (JStr "hello")),
   sample.world_of [("results/tiny.json", "hello"); ("results/tiny.lock", "");
                    ("results/tiny.fail", "Traceback")]).
Proof.
  destruct (C1_cache_hit_returns_stored ["a.wav"] "tiny" "results" "hello"
              (sample.world_of [("results/tiny.json", "hello");
                                ("results/tiny.lock", "");
                                ("results/tiny.fail", "Traceback")]))
    as (r & Hrun & Hr & _).
  - reflexivity.
  - rewrite Hrun, Hr. reflexivity.
Defined.

Lemma C2_lock_contention_witness :
  transcription.make_predictions ["a.wav"] "tiny" "results"
    (sample.world_of [("results/tiny.lock", "")]) =
  (Ok None,
   mkWorld (files (sample.world_of [("results/tiny.lock", "")])) ∅
     [EvLock "results/tiny"]) /\
  exists optimizer' w',
    chatbot.iteration [] [] "huggingface" "results"
      (new [sample.busy_space] None) sample.empty_world =
    (Ok (chatbot.Continue, optimizer'), w') /\
    trace w' = [EvPrint "*** Skipped run for parameters={...} ***"].
Proof.
  destruct C2_lock_contention_is_a_skip as [Htranscription Hsweep]. split.
  - apply (Htranscription ["a.wav"] "tiny" "results"
             (sample.world_of [("results/tiny.lock", "")])).
    + reflexivity.
    + reflexivity.
  - epose proof (Hsweep [] [] "huggingface" "results" 0%nat
                   (new [sample.busy_space] None) _ sample.empty_world
                   _ _ _ _ _ _ _ _
                   eq_refl eq_refl eq_refl eq_refl eq_refl eq_refl eq_refl
                   eq_refl eq_refl) as [Hit _].
    eexists _, _. split; [exact Hit|reflexivity].
Defined.

Lemma C3_terminal_attempt_witness :
  let '(r, w') := transcription.make_predictions ["a.wav"] "broken" "results"
                    sample.empty_world in
  r = Err (BackendError "no such model") /\
  files w' !! "results/broken.fail" = Some "Traceback: no such model" /\
  files w' !! "results/broken.json" = None.
Proof.
  pose proof (C3_terminal_attempt ["a.wav"] "broken" "results"
                sample.empty_world eq_refl eq_refl) as Hw.
  destruct (transcription.make_predictions ["a.wav"] "broken" "results"
              sample.empty_world) as [r w'].
  destruct Hw as (Hr & Hfail & Hout & _).
  split; [exact Hr|]. split; [exact Hfail|exact Hout].
Defined.

Lemma C4_failed_entry_witness :
  let w := sample.world_of [("results/tiny.fail", "Traceback")] in
  let w' := Nat.iter 3
              (fun w0 => snd (transcription.make_predictions ["a.wav"] "tiny"
                                "results" w0)) w in
  fst (transcription.make_predictions ["a.wav"] "tiny" "results" w') = Ok None /\
  files w' = files w /\
  backend_calls (trace w') = [].
Proof.
  intros w w'.
  destruct (C4_failed_entry_is_terminal ["a.wav"] "tiny" "results" "Traceback"
              w) as (Hpasses & _ & _).
  - reflexivity.
  - reflexivity.
  - exact (Hpasses 3%nat).
Defined.

Lemma C5_prediction_loop_witness :
  (exists r w',
     chatbot.prediction_loop 3 [] [] "huggingface" "results"
       (new [sample.model_space] (Some 2%nat)) sample.empty_world
     = Some (r, w')) /\
  exists o w1,
    after_passes [] [] "huggingface" "results" 2
      (new [sample.model_space] (Some 2%nat)) sample.empty_world
    = Some (o, w1) /\
    trials o = 2%nat /\ cursor o = [] /\
    chatbot.prediction_loop 3 [] [] "huggingface" "results"
      (new [sample.model_space] (Some 2%nat)) sample.empty_world
    = Some (Ok chatbot.BreakExhausted, w1).
Proof.
  destruct (C5_prediction_loop_finite [] [] "huggingface" "results"
              [sample.model_space] (Some 2%nat) sample.empty_world)
    as (Hends & _ & Hwhen & Hnone).
  split.
  - apply (Hends 3%nat). vm_compute. lia.
  - destruct (after_passes [] [] "huggingface" "results" 2
                (new [sample.model_space] (Some 2%nat)) sample.empty_world)
      as [[o w1]|] eqn:Hreach.
    + exists o, w1. split; [reflexivity|].
      assert (trials o = 2%nat /\ cursor o = [] /\
              is_complete o "results" true w1 = (Ok false, w1)) as (Ht & Hc & Hi).
      { vm_compute in Hreach. injection Hreach as <- <-.
        split; [reflexivity|]. split; reflexivity. }
      split; [exact Ht|]. split; [exact Hc|].
      apply (Hwhen 2%nat o w1 Hreach 3%nat); [lia|exact Hi|].
      apply (proj2 (Hnone o w1)). right. rewrite Hc. constructor.
    + vm_compute in Hreach. discriminate Hreach.
Defined.


Lemma C7_reporting_collection_witness :
  let w := sample.world_of
             [("results/gpt2.zbp", "zeta"); ("results/gpt2.json", "p1");
              ("results/busy.zbp", "alpha"); ("results/busy.json", "p2");
              ("results/busy.lock", "")] in
  exists results w',
    chatbot.collect_results [sample.model_space] "results" w = (Ok results, w') /\
    StronglySorted by_name results /\
    length results = 2%nat.
Proof.
  intros w.
  destruct (C7_reporting_collection [sample.model_space] "results" [] w)
    as (roots & runs & results & w' & Hvalid & _ & _ & Hruns & Hrun & _ &
        Hperm & Hsorted & _).
  - intros root stored Hin Hstored. vm_compute in Hin.
    apply list_elem_of_In in Hin. simpl in Hin.
    destruct Hin as [<-|[<-|[]]]; destruct Hstored as [Hs|Hs];
      vm_compute in Hs; injection Hs as <-; eexists; reflexivity.
  - exists results, w'. split; [exact Hrun|]. split; [exact Hsorted|].
    rewrite Hperm. rewrite <- (Forall2_length _ _ _ Hruns).
    injection Hvalid as Hroots. apply (f_equal length) in Hroots.
    rewrite !length_fmap in Hroots. rewrite <- Hroots. reflexivity.
Defined.

Lemma C8_override_witness :
  exists settings w',
    chatbot.experiment_settings ["model"; "prompt"] ["gpt2"; "llama"] "gpt2"
      ["standard"; "friendly"] "standard" sample.preset_world
      = (Ok settings, w') /\
    heap w' !! 1%positive = Some sample.model_space /\
    heap w' !! 2%positive = Some sample.prompt_space.
Proof.
  destruct (chatbot.experiment_settings ["model"; "prompt"] ["gpt2"; "llama"]
              "gpt2" ["standard"; "friendly"] "standard" sample.preset_world)
    as [[settings|e] w'] eqn:Hrun.
  - exists settings, w'. split; [reflexivity|].
    assert (forall x preset,
              dict_lookup x chatbot_config.experiments = Some preset ->
              is_Some (heap sample.preset_world !! preset)) as Hwf.
    { intros x preset. simpl. repeat case_decide; intros [= <-];
        eexists; reflexivity. }
    destruct (C8_override_leaves_the_rest _ _ _ _ _ _ _ _ Hwf Hrun)
      as (Hframe & _).
    split; apply Hframe; reflexivity.
  - vm_compute in Hrun. discriminate Hrun.
Defined.

Lemma C9_labels_and_contexts_witness :
  chatbot.organize
    [mkChat [mkTurn "user" "hi"; mkTurn "bot" "hello"];
     mkChat [mkTurn "user" "bye"]] [] [] =
    Ok (["hello"; "bye"], [mkChat [mkTurn "user" "hi"]; mkChat []]) /\
  chatbot.organize [mkChat [mkTurn "user" "hi"]; mkChat []] [] [] = Err IndexError.
Proof.
  split.
  - destruct (proj1 (C9_labels_and_contexts
        [mkChat [mkTurn "user" "hi"; mkTurn "bot" "hello"];
         mkChat [mkTurn "user" "bye"]]))
      as (labels & contexts & Hrun & _).
    + repeat constructor; discriminate.
    + reflexivity.
  - apply (proj2 (C9_labels_and_contexts [mkChat [mkTurn "user" "hi"]; mkChat []])).
    right. left. reflexivity.
Defined.

Lemma C10_skip_flags_witness :
  chatbot.main 0
    (chatbot.mkArgs ["gpt2"] "gpt2" ["standard"] "standard" ["model"]
       "huggingface" "results" true true) sample.preset_world =
  Some (Err (ValueError
    "Cannot specify both --skip-prediction and --skip-visualization."),
    sample.preset_world).
Proof.
  apply (proj1 (C10_skip_flags 0
           (chatbot.mkArgs ["gpt2"] "gpt2" ["standard"] "standard" ["model"]
              "huggingface" "results" true true) sample.preset_world)).
  split; reflexivity.
Defined.
End sample_runs.

(** ** More on the transcription task *)

Section transcription_more.
Context `{JsonCodec} `{CacheKey} `{Traceback} `{Whisper}.
Import cache_utils transcription.

Lemma transcribe_all_Ok model audio_paths :
  forall outs all,
    transcribe_all model audio_paths outs = Ok all <->
    exists texts,
      all = outs ++ texts /\
      Forall2 (fun path text => transcribe model path = Ok text)
        audio_paths texts.
Proof.
  induction audio_paths as [|p rest IH]; intros outs all; cbn.
  - split.
    + intros [= <-]. exists []. by rewrite app_nil_r.
    + intros (texts & -> & Hall). inversion Hall. by rewrite app_nil_r.
  - destruct (transcribe model p) as [text|e] eqn:Hp.
    + rewrite IH. split.
      * intros (texts & -> & Hall). exists (text :: texts).
        rewrite <- app_assoc. split; [done|]. by constructor.
      * intros (texts & -> & Hall). inversion Hall as [|? t ? ts Ht Hts]; subst.
        assert (t = text) as -> by congruence.
        exists ts. rewrite <- app_assoc. done.
    + split; [done|]. intros (texts & -> & Hall).
      inversion Hall; subst. congruence.
Qed.

Lemma transcribe_all_Err model prefix path rest e :
  Forall (fun p => exists text, transcribe model p = Ok text) prefix ->
  transcribe model path = Err e ->
  forall outs, transcribe_all model (prefix ++ path :: rest) outs = Err e.
Proof.
  intros Hprefix Hpath. induction Hprefix as [|p prefix [text Hp] _ IH];
    intros outs; cbn.
  - by rewrite Hpath.
  - rewrite Hp. apply IH.
Qed.

(** X1: transcribe_audio returns a list exactly when the model loads and
    every path is transcribed, and then the list has one text per path, in
    the order of the paths. *)
Theorem transcribe_audio_texts
    (model_name : string) (audio_paths outs : list string) (w : World) :
  fst (transcribe_audio model_name audio_paths w) = Ok outs <->
  exists model,
    load_model model_name = Ok model /\
    Forall2 (fun path text => transcribe model path = Ok text)
      audio_paths outs.
Proof.
  rewrite transcribe_audio_run. cbn [fst]. unfold backend_outcome.
  destruct (load_model model_name) as [model|e].
  - rewrite transcribe_all_Ok. split.
    + intros (texts & -> & Hall). exists model. done.
    + intros (model' & [= <-] & Hall). exists outs. done.
  - split; [done|]. intros (model' & Hm & _). done.
Qed.

(** X2: transcribe_audio raises what load_model raises, without looking
    at the paths; with the model loaded it raises the exception of the
    first path that cannot be transcribed, whatever comes after it. *)
Theorem transcribe_audio_first_failure
    (model_name : string) (w : World) (e : exn) :
  (load_model model_name = Err e ->
   forall audio_paths,
     fst (transcribe_audio model_name audio_paths w) = Err e) /\
  (forall model prefix path rest,
     load_model model_name = Ok model ->
     Forall (fun p => exists text, transcribe model p = Ok text) prefix ->
     transcribe model path = Err e ->
     fst (transcribe_audio model_name (prefix ++ path :: rest) w) = Err e).
Proof.
  split.
  - intros Hload audio_paths. rewrite transcribe_audio_run. cbn [fst].
    unfold backend_outcome. by rewrite Hload.
  - intros model prefix path rest Hload Hprefix Hpath.
    rewrite transcribe_audio_run. cbn [fst]. unfold backend_outcome.
    rewrite Hload. by apply transcribe_all_Err.
Qed.

(** X4: the cache is keyed by the model alone.  After a call that
    produced predictions, every later call for the same model and output
    directory returns these predictions from the output artifact and
    changes nothing more, also when it is given other audio paths. *)
Theorem make_predictions_cached_per_model
    (audio_paths : list string) (model_name output_dir : string) (w : World)
    (texts : list string) :
  files w !! (root_of output_dir model_name +:+ ".json") = None ->
  fst (CacheLock_enter (root_of output_dir model_name) w) = Ok true ->
  backend_outcome model_name audio_paths = Ok texts ->
  json_loads (json_dumps (JArr (JStr <$> texts))) = Some (JArr (JStr <$> texts)) ->
  let w1 := snd (make_predictions audio_paths model_name output_dir w) in
  forall other_paths,
    make_predictions other_paths model_name output_dir w1 =
    (Ok (Some (JArr (JStr <$> texts))), w1).
Proof.
  intros Hmiss Hheld Hback Hround w1 other_paths. subst w1.
  apply CacheLock_enter_held in Hheld as [Hl Hf].
  rewrite (make_predictions_held _ _ _ _ Hmiss Hl Hf), Hback. cbn [snd].
  unfold make_predictions. fold (root_of output_dir model_name). py_unfold.
  assert (lock_path (root_of output_dir model_name)
          <> root_of output_dir model_name +:+ ".json") as Hne
    by (by apply ext_ne).
  rewrite lookup_delete_ne by done. rewrite lookup_insert_eq.
  rewrite bool_decide_eq_true_2 by eauto. cbn.
  rewrite lookup_delete_ne by done. rewrite lookup_insert_eq.
  by rewrite Hround.
Qed.
End transcription_more.

Lemma bind_cases {A B} (c : M A) (k : A -> M B) w r w' :
  bind c k w = (r, w') ->
  (exists e, c w = (Err e, w') /\ r = Err e) \/
  (exists a w1, c w = (Ok a, w1) /\ k a w1 = (r, w')).
Proof.
  unfold bind. destruct (c w) as [[a|e] w1].
  - right. eauto.
  - intros [= <- <-]. left. eauto.
Qed.

(** ** More on the experiment settings *)

Section settings_more.
Context `{chatbot_config.Config}.
Import chatbot.

Lemma override_dimension_world setting dim many single w r w' :
  override_dimension setting dim many single w = (r, w') ->
  files w' = files w /\ trace w' = trace w /\
  forall l, l <> setting -> heap w' !! l = heap w !! l.
Proof.
  unfold override_dimension, bind, get_dimension, set_dimension, dict_get.
  destruct (heap w !! setting) as [s|] eqn:Hs; cbn; [|by intros [= <- <-]].
  destruct (dict_lookup dim (dimensions s)) as [d|]; cbn;
    [|by intros [= <- <-]].
  destruct d; cbn; rewrite ?Hs; intros [= <- <-]; cbn; try done;
    (split; [done|]); (split; [done|]);
    intros l Hl; by rewrite lookup_insert_ne.
Qed.

Lemma update_settings_world settings models single_model prompts single_prompt :
  forall w r w',
    update_settings settings models single_model prompts single_prompt w
      = (r, w') ->
    files w' = files w /\ trace w' = trace w /\
    forall l, l ∉ settings -> heap w' !! l = heap w !! l.
Proof.
  induction settings as [|setting rest IH]; intros w r w' Hrun; cbn in Hrun.
  { by injection Hrun as <- <-. }
  apply bind_cases in Hrun as [(e & Hm & ->)|([] & w1 & Hm & Hrun)].
  { apply override_dimension_world in Hm as (Hf1 & Ht1 & Hh1).
    split; [done|]. split; [done|]. intros l Hl.
    apply Hh1. by apply not_elem_of_cons in Hl as [? _]. }
  apply override_dimension_world in Hm as (Hf1 & Ht1 & Hh1).
  apply bind_cases in Hrun as [(e & Hp & ->)|([] & w2 & Hp & Hrun)].
  { apply override_dimension_world in Hp as (Hf2 & Ht2 & Hh2).
    split; [congruence|]. split; [congruence|]. intros l Hl.
    apply not_elem_of_cons in Hl as [? _]. rewrite Hh2, Hh1; done. }
  apply override_dimension_world in Hp as (Hf2 & Ht2 & Hh2).
  apply IH in Hrun as (Hf3 & Ht3 & Hh3).
  split; [congruence|]. split; [congruence|]. intros l Hl.
  apply not_elem_of_cons in Hl as [? ?]. rewrite Hh3, Hh2, Hh1; done.
Qed.

Lemma copy_settings_world experiments :
  forall w r w',
    copy_settings experiments w = (r, w') ->
    files w' = files w /\ trace w' = trace w /\
    (forall l s, heap w !! l = Some s -> heap w' !! l = Some s) /\
    (forall settings, r = Ok settings ->
       forall l, l ∈ settings -> heap w !! l = None).
Proof.
  induction experiments as [|x rest IH]; intros w r w' Hrun; cbn in Hrun.
  { injection Hrun as <- <-. repeat split; try done.
    intros settings [= <-] l Hl. by apply elem_of_nil in Hl. }
  apply bind_cases in Hrun as [(e & Hget & ->)|(preset & w0 & Hget & Hrun)].
  { unfold dict_get in Hget.
    destruct (dict_lookup x chatbot_config.experiments); [done|].
    injection Hget as <- <-. repeat split; done. }
  unfold dict_get in Hget.
  destruct (dict_lookup x chatbot_config.experiments) as [p|]; [|done].
  injection Hget as <- <-.
  apply bind_cases in Hrun as [(e & Hcopy & ->)|(l' & w1 & Hcopy & Hrun)].
  { unfold deepcopy in Hcopy. destruct (heap w !! p); [done|].
    injection Hcopy as <- <-. repeat split; done. }
  unfold deepcopy in Hcopy.
  destruct (heap w !! p) as [s|] eqn:Hs; [|done].
  injection Hcopy as <- <-.
  set (l' := fresh (dom (heap w))) in *.
  assert (heap w !! l' = None) as Hfresh.
  { apply not_elem_of_dom. apply is_fresh. }
  assert (forall l s0, heap w !! l = Some s0 ->
            <[l' := s]> (heap w) !! l = Some s0) as Hgrow.
  { intros l s0 Hl. rewrite lookup_insert_ne; [done|]. intros <-. congruence. }
  apply bind_cases in Hrun as [(e & Hrest & ->)|(settings & w2 & Hrest & Hret)].
  { apply IH in Hrest as (Hf & Ht & Hh & _). cbn in *.
    repeat split; try done. intros l s0 Hl. by apply Hh, Hgrow. }
  apply IH in Hrest as (Hf & Ht & Hh & Hnew). injection Hret as <- <-.
  cbn in *. repeat split; try done.
  - intros l s0 Hl. by apply Hh, Hgrow.
  - intros ? [= <-] l Hl. apply elem_of_cons in Hl as [->|Hl]; [done|].
    specialize (Hnew settings eq_refl l Hl).
    destruct (decide (l = l')) as [->|Hne]; [done|].
    by rewrite lookup_insert_ne in Hnew.
Qed.

(** X5: building the experiment settings never modifies an object that
    was on the heap before, also when it ends in an exception, and it
    touches neither the files nor the events. *)
Theorem experiment_settings_frame
    (experiments : list string) (models : list string) (single_model : string)
    (prompts : list string) (single_prompt : string) (w : World) :
  let w' := snd (experiment_settings experiments models single_model prompts
                   single_prompt w) in
  (forall obj s, heap w !! obj = Some s -> heap w' !! obj = Some s) /\
  files w' = files w /\ trace w' = trace w.
Proof.
  destruct (experiment_settings experiments models single_model prompts
              single_prompt w) as [r w'] eqn:Hrun. cbn.
  unfold experiment_settings in Hrun.
  apply bind_cases in Hrun as [(e & Hcopy & ->)|(settings & w1 & Hcopy & Hrun)].
  { apply copy_settings_world in Hcopy as (Hf & Ht & Hh & _). done. }
  apply copy_settings_world in Hcopy as (Hf & Ht & Hh & Hnew).
  specialize (Hnew settings eq_refl).
  assert (exists r2 w2,
            update_settings settings models single_model prompts
              single_prompt w1 = (r2, w2) /\ w' = w2) as (r2 & w2 & Hupd & ->).
  { apply bind_cases in Hrun as [(e & Hupd & ->)|([] & w2 & Hupd & Hret)].
    - eauto.
    - injection Hret as _ <-. eauto. }
  apply update_settings_world in Hupd as (Hf2 & Ht2 & Hh2).
  split; [|split; congruence]. intros obj s Hobj.
  rewrite Hh2; [by apply Hh|]. intros Hin. apply Hnew in Hin. congruence.
Qed.

Lemma override_dimension_total setting dim many single w s d :
  heap w !! setting = Some s ->
  dict_lookup dim (dimensions s) = Some d ->
  swappable d ->
  exists d',
    override_dimension setting dim many single w =
    (Ok tt, mkWorld (files w)
              (<[setting := mkSpace (dict_set dim d' (dimensions s))]> (heap w))
              (trace w)).
Proof.
  intros Hs Hd Hswap.
  unfold override_dimension, bind, get_dimension, set_dimension, dict_get.
  rewrite Hs, Hd. cbn. destruct d; [| |done]; cbn; rewrite Hs; eauto.
Qed.

Lemma update_settings_total settings models single_model prompts single_prompt :
  NoDup settings ->
  forall w,
    (forall l, l ∈ settings ->
       exists s, heap w !! l = Some s /\ overridable s) ->
    exists w',
      update_settings settings models single_model prompts single_prompt w
        = (Ok tt, w').
Proof.
  induction 1 as [|setting rest Hnotin Hnodup IH]; intros w Hgood; cbn.
  { eexists. reflexivity. }
  destruct (Hgood setting) as (s & Hs & (dm & Hdm & Hsm) & (dp & Hdp & Hsp));
    [by left|].
  destruct (override_dimension_total setting "model_preset" models
              single_model w s dm Hs Hdm Hsm) as [dm' Hm].
  rewrite (bind_run _ _ _ _ _ Hm).
  edestruct (override_dimension_total setting "prompt_preset" prompts
               single_prompt) as [dp' Hp]; [..|rewrite (bind_run _ _ _ _ _ Hp)].
  { cbn. apply lookup_insert_eq. }
  { cbn. rewrite dict_lookup_set_ne by done. exact Hdp. }
  { exact Hsp. }
  apply IH. intros l Hl. cbn.
  destruct (Hgood l) as (s0 & Hs0 & Hover); [by right|].
  exists s0. split; [|done].
  rewrite !lookup_insert_ne; [done|by intros <-..].
Qed.

Lemma copy_settings_total experiments :
  forall w,
    Forall (fun x => exists preset,
              dict_lookup x chatbot_config.experiments = Some preset /\
              is_Some (heap w !! preset)) experiments ->
    exists settings w', copy_settings experiments w = (Ok settings, w').
Proof.
  induction experiments as [|x rest IH]; intros w Hall; cbn.
  { eexists _, _. reflexivity. }
  apply Forall_cons in Hall as [(preset & Hx & [s Hs]) Hall].
  unfold dict_get. rewrite Hx. unfold bind at 1. cbn.
  unfold bind at 1. unfold deepcopy. rewrite Hs.
  edestruct (IH (mkWorld (files w)
                  (<[fresh (dom (heap w)) := s]> (heap w)) (trace w)))
    as (settings & w' & Hrest).
  { eapply Forall_impl; [exact Hall|]. cbn.
    intros y (p & Hy & [sp Hp]). exists p. split; [done|]. exists sp.
    rewrite lookup_insert_ne; [done|]. intros <-.
    assert (heap w !! fresh (dom (heap w)) = None) as Hfresh
      by (apply not_elem_of_dom, is_fresh).
    congruence. }
  rewrite (bind_run _ _ _ _ _ Hrest). eexists _, _. reflexivity.
Qed.

(** X6: with every preset of the configuration on the heap and every
    selected experiment known, the settings are built without an exception
    exactly when each selected preset has a model_preset and a
    prompt_preset dimension that is a Categorical or a Constant. *)
Theorem experiment_settings_succeeds_iff
    (experiments : list string) (models : list string) (single_model : string)
    (prompts : list string) (single_prompt : string) (w : World) :
  (forall x preset, dict_lookup x chatbot_config.experiments = Some preset ->
     is_Some (heap w !! preset)) ->
  Forall (fun x => is_Some (dict_lookup x chatbot_config.experiments))
    experiments ->
  (exists settings w',
     experiment_settings experiments models single_model prompts
       single_prompt w = (Ok settings, w')) <->
  Forall (fun x => forall preset s,
            dict_lookup x chatbot_config.experiments = Some preset ->
            heap w !! preset = Some s -> overridable s) experiments.
Proof.
  intros Hwf Hknown. split.
  - intros (settings & w' & Hrun). unfold experiment_settings in Hrun.
    apply bind_Ok in Hrun as (settings0 & w1 & Hcopy & Hrun).
    apply bind_Ok in Hrun as ([] & w2 & Hupd & Hret).
    apply ret_Ok in Hret as [-> ->].
    apply copy_settings_Ok in Hcopy
      as (_ & _ & Hnodup & _ & _ & Hall); [|done].
    apply update_settings_Ok in Hupd as (_ & _ & _ & Hin); [|done].
    apply Forall_forall. intros x Hx preset s Hpre Hs.
    apply list_elem_of_lookup in Hx as [i Hi].
    destruct (Forall2_lookup_l _ _ _ _ _ Hall Hi)
      as (setting & Hsetting & p0 & s0 & Hp0 & Hs0 & Hcopy).
    assert (p0 = preset) as -> by congruence.
    assert (s0 = s) as -> by congruence.
    destruct (Hin setting) as (s1 & s' & Hs1 & _ & _ & _ & Hm & Hp).
    { by eapply list_elem_of_lookup_2. }
    assert (s1 = s) as -> by congruence.
    destruct Hm as (dm & dm' & Hdm & _ & Hrm).
    destruct Hp as (dp & dp' & Hdp & _ & Hrp).
    split; [exists dm|exists dp]; (split; [done|]).
    + by destruct dm.
    + by destruct dp.
  - intros Hgood.
    destruct (copy_settings_total experiments w) as (settings & w1 & Hcopy).
    { apply Forall_forall. intros x Hx.
      rewrite Forall_forall in Hknown. destruct (Hknown x Hx) as [preset Hpre].
      exists preset. eauto. }
    pose proof (copy_settings_Ok _ _ _ _ Hwf Hcopy)
      as (_ & _ & Hnodup & _ & _ & Hall).
    destruct (update_settings_total settings models single_model prompts
                single_prompt Hnodup w1) as [w2 Hupd].
    { intros l Hl. apply list_elem_of_lookup in Hl as [i Hi].
      destruct (Forall2_lookup_r _ _ _ _ _ Hall Hi)
        as (x & Hx & preset & s & Hpre & Hs & Hl).
      exists s. split; [done|].
      rewrite Forall_forall in Hgood.
      eapply Hgood; [by eapply list_elem_of_lookup_2|done..]. }
    exists settings, w2. unfold experiment_settings.
    rewrite (bind_run _ _ _ _ _ Hcopy). by rewrite (bind_run _ _ _ _ _ Hupd).
Qed.

(** X7: the first selected experiment that the configuration does not
    know ends the call with KeyError of its name, whatever follows it in
    the selection. *)
Theorem experiment_settings_unknown_experiment
    (known : list string) (x : string) (rest : list string)
    (models : list string) (single_model : string)
    (prompts : list string) (single_prompt : string) (w : World) :
  (forall y preset, dict_lookup y chatbot_config.experiments = Some preset ->
     is_Some (heap w !! preset)) ->
  Forall (fun y => is_Some (dict_lookup y chatbot_config.experiments)) known ->
  dict_lookup x chatbot_config.experiments = None ->
  fst (experiment_settings (known ++ x :: rest) models single_model prompts
         single_prompt w) = Err (KeyError x).
Proof.
  intros Hwf Hknown Hx. unfold experiment_settings.
  assert (forall w0,
            (forall y preset,
               dict_lookup y chatbot_config.experiments = Some preset ->
               is_Some (heap w0 !! preset)) ->
            fst (copy_settings (known ++ x :: rest) w0) = Err (KeyError x))
    as Hcopy.
  { clear w Hwf. induction Hknown as [|y known [preset Hy] _ IH];
      intros w0 Hwf; cbn.
    - unfold bind, dict_get. by rewrite Hx.
    - unfold bind at 1. unfold dict_get. rewrite Hy. cbn.
      unfold bind at 1. unfold deepcopy.
      destruct (Hwf _ _ Hy) as [s Hs]. rewrite Hs.
      unfold bind at 1.
      match goal with
      | |- context [copy_settings _ ?w1] =>
          specialize (IH w1);
          destruct (copy_settings (known ++ x :: rest) w1)
            as [[settings0|e0] w2]
      end; cbn in *.
      + exfalso. enough (Ok settings0 = Err (KeyError x)) by done. apply IH.
        intros z p Hz. destruct (Hwf _ _ Hz) as [sp Hp]. exists sp.
        rewrite lookup_insert_ne; [done|]. intros <-.
        assert (heap w0 !! fresh (dom (heap w0)) = None) as Hfresh
          by (apply not_elem_of_dom, is_fresh).
        congruence.
      + apply IH. intros z p Hz. destruct (Hwf _ _ Hz) as [sp Hp]. exists sp.
        rewrite lookup_insert_ne; [done|]. intros <-.
        assert (heap w0 !! fresh (dom (heap w0)) = None) as Hfresh
          by (apply not_elem_of_dom, is_fresh).
        congruence. }
  specialize (Hcopy w Hwf). unfold bind at 1.
  destruct (copy_settings (known ++ x :: rest) w) as [[?|?] ?]; cbn in *; done.
Qed.

Lemma composite_run settings spaces w :
  Forall2 (fun l s => heap w !! l = Some s) settings spaces ->
  composite settings w = (Ok spaces, w).
Proof.
  induction 1 as [|l s settings spaces Hl _ IH]; cbn; [done|].
  unfold bind at 1. rewrite Hl. by rewrite (bind_run _ _ _ _ _ IH).
Qed.

Lemma overridden_settings_on_heap
    (experiments : list string) (models : list string) (single_model : string)
    (prompts : list string) (single_prompt : string)
    (w : World) (settings : list positive) (w' : World) :
  (forall x preset, dict_lookup x chatbot_config.experiments = Some preset ->
     is_Some (heap w !! preset)) ->
  experiment_settings experiments models single_model prompts single_prompt w
    = (Ok settings, w') ->
  exists my_space,
    Forall2 (fun l s => heap w' !! l = Some s) settings my_space /\
    Forall2 (fun x sub =>
               exists preset s,
                 dict_lookup x chatbot_config.experiments = Some preset /\
                 heap w !! preset = Some s /\
                 overridden models single_model prompts single_prompt s sub)
      experiments my_space.
Proof.
  intros Hwf Hrun. unfold experiment_settings in Hrun.
  apply bind_Ok in Hrun as (settings0 & w1 & Hcopy & Hrun).
  apply bind_Ok in Hrun as ([] & w2 & Hupd & Hret).
  apply ret_Ok in Hret as [-> ->].
  apply copy_settings_Ok in Hcopy
    as (_ & _ & Hnodup & _ & _ & Hall); [|done].
  apply update_settings_Ok in Hupd as (_ & _ & _ & Hin); [|done].
  clear Hnodup. induction Hall as [|x l exps ls Hxl Hall IH].
  - exists []. split; constructor.
  - destruct IH as (subs & Hheap & Hspec).
    { intros l0 Hl0. apply Hin. by right. }
    destruct Hxl as (preset & s & Hpre & Hs & Hl).
    destruct (Hin l) as (s1 & s' & Hs1 & Hs' & Hov); [by left|].
    assert (s1 = s) as -> by congruence.
    exists (s' :: subs). split; constructor; eauto.
Qed.

(** X8: the composite search space that chatbot_main builds from the
    settings has one sub-space for each selected experiment, in the order
    of the selection (a name selected twice gives two), and each is the
    preset of that experiment with model_preset and prompt_preset
    overridden. *)
Theorem composite_of_experiment_settings
    (experiments : list string) (models : list string) (single_model : string)
    (prompts : list string) (single_prompt : string)
    (w : World) (settings : list positive) (w' : World) :
  (forall x preset, dict_lookup x chatbot_config.experiments = Some preset ->
     is_Some (heap w !! preset)) ->
  experiment_settings experiments models single_model prompts single_prompt w
    = (Ok settings, w') ->
  exists my_space,
    composite settings w' = (Ok my_space, w') /\
    Forall2 (fun x sub =>
               exists preset s,
                 dict_lookup x chatbot_config.experiments = Some preset /\
                 heap w !! preset = Some s /\
                 overridden models single_model prompts single_prompt s sub)
      experiments my_space.
Proof.
  intros Hwf Hrun.
  destruct (overridden_settings_on_heap _ _ _ _ _ _ _ _ Hwf Hrun)
    as (my_space & Hheap & Hspec).
  exists my_space. split.
  - by apply composite_run.
  - exact Hspec.
Qed.
End settings_more.

(** ** More on the prediction loop *)

Section loop_more.
Context `{JsonCodec} `{CacheKey} `{chatbot_config.Config}
        `{modeling.Modeling} `{Scoring} `{Repr} `{reporting_utils.Naming}.
Import cache_utils search_space exhaustive chatbot.

Variables (contexts : list ChatMessages) (labels : list string)
          (hf_inference_method predictions_dir : string).

(** X9: the body of the loop reads the six parameters in the order of the
    call; the first one that the assignment lacks ends the pass with
    KeyError of its name, before the run adapter is reached and with the
    world as it was. *)
Theorem iteration_missing_parameter
    (optimizer optimizer' : ExhaustiveOptimizer) (w : World)
    (parameters : dict json) (before after : list string) (key : string) :
  is_complete optimizer predictions_dir true w = (Ok false, w) ->
  get_parameters predictions_dir optimizer w
    = (Ok (Some parameters, optimizer'), w) ->
  ["prompt_preset"; "model_preset"; "temperature"; "max_tokens"; "top_p";
   "context_length"] = before ++ key :: after ->
  Forall (fun k => is_Some (dict_lookup k parameters)) before ->
  dict_lookup key parameters = None ->
  iteration contexts labels hf_inference_method predictions_dir optimizer w
    = (Err (KeyError key), w).
Proof.
  intros Hc Hg Hkeys Hbefore Hkey. unfold iteration.
  rewrite (bind_run _ _ _ _ _ Hc). rewrite (bind_run _ _ _ _ _ Hg).
  repeat
    (destruct before as [|k before];
     [injection Hkeys as <- <-; unfold bind at 1, dict_get at 1;
      by rewrite Hkey|
      injection Hkeys as <- Hkeys;
      apply Forall_cons in Hbefore as [[? Hk] Hbefore];
      rewrite (bind_run _ _ _ _ _ (dict_get_run _ _ _ _ Hk)); clear Hk]).
  destruct before; discriminate Hkeys.
Qed.

Lemma iteration_scored optimizer optimizer' w w2 parameters
    prompt_preset model_preset temperature max_tokens top_p context_length
    id predictions :
  is_complete optimizer predictions_dir true w = (Ok false, w) ->
  get_parameters predictions_dir optimizer w
    = (Ok (Some parameters, optimizer'), w) ->
  dict_lookup "prompt_preset" parameters = Some prompt_preset ->
  dict_lookup "model_preset" parameters = Some model_preset ->
  dict_lookup "temperature" parameters = Some temperature ->
  dict_lookup "max_tokens" parameters = Some max_tokens ->
  dict_lookup "top_p" parameters = Some top_p ->
  dict_lookup "context_length" parameters = Some context_length ->
  modeling.make_predictions contexts prompt_preset model_preset temperature
    max_tokens top_p context_length predictions_dir hf_inference_method w
    = (Ok (Some (id, predictions)), w2) ->
  iteration contexts labels hf_inference_method predictions_dir optimizer w =
  (eval_result <-
     run_or_read_eval contexts labels predictions_dir id predictions ;;
   print "*** Iteration complete. ***" ;;;
   print ("Eval: " +:+ float_str eval_result +:+
          ", Parameters: " +:+ repr_dict parameters) ;;;
   print "***************************" ;;;
   ret (Continue, optimizer')) w2.
Proof.
  intros Hc Hg H1' H2' H3' H4' H5' H6' Hmp. unfold iteration.
  rewrite (bind_run _ _ _ _ _ Hc). rewrite (bind_run _ _ _ _ _ Hg).
  rewrite (bind_run _ _ _ _ _ (dict_get_run _ _ _ _ H1')).
  rewrite (bind_run _ _ _ _ _ (dict_get_run _ _ _ _ H2')).
  rewrite (bind_run _ _ _ _ _ (dict_get_run _ _ _ _ H3')).
  rewrite (bind_run _ _ _ _ _ (dict_get_run _ _ _ _ H4')).
  rewrite (bind_run _ _ _ _ _ (dict_get_run _ _ _ _ H5')).
  rewrite (bind_run _ _ _ _ _ (dict_get_run _ _ _ _ H6')).
  by rewrite (bind_run _ _ _ _ _ Hmp).
Qed.

(** X10: an .eval artifact that is there but cannot be read stops the
    sweep.  When the run adapter returns a run whose .eval file is empty the
    loop ends with StopIteration, and when the first line of the file, read
    with universal newlines and stripped, is not a float the loop ends with
    a ValueError whose message begins with the words of Python's float; in
    both cases the metric is not computed again, the file is left as it is
    and nothing is printed. *)
Theorem prediction_loop_unreadable_eval
    (fuel : nat) (optimizer optimizer' : ExhaustiveOptimizer) (w w2 : World)
    (parameters : dict json)
    (prompt_preset model_preset temperature max_tokens top_p
     context_length : json)
    (id : string) (predictions : json) (stored : string) :
  is_complete optimizer predictions_dir true w = (Ok false, w) ->
  get_parameters predictions_dir optimizer w
    = (Ok (Some parameters, optimizer'), w) ->
  dict_lookup "prompt_preset" parameters = Some prompt_preset ->
  dict_lookup "model_preset" parameters = Some model_preset ->
  dict_lookup "temperature" parameters = Some temperature ->
  dict_lookup "max_tokens" parameters = Some max_tokens ->
  dict_lookup "top_p" parameters = Some top_p ->
  dict_lookup "context_length" parameters = Some context_length ->
  modeling.make_predictions contexts prompt_preset model_preset temperature
    max_tokens top_p context_length predictions_dir hf_inference_method w
    = (Ok (Some (id, predictions)), w2) ->
  files w2 !! eval_path predictions_dir id = Some stored ->
  (stored = "" ->
   prediction_loop (S fuel) contexts labels hf_inference_method
     predictions_dir optimizer w = Some (Err StopIteration, w2)) /\
  (forall line,
     first_line stored = Some line -> parse_float line = None ->
     exists rest,
       prediction_loop (S fuel) contexts labels hf_inference_method
         predictions_dir optimizer w
       = Some (Err (ValueError
                      ("could not convert string to float" +:+ rest)), w2)).
Proof.
  intros Hc Hg H1' H2' H3' H4' H5' H6' Hmp Hstored.
  pose proof (iteration_scored _ _ _ _ _ _ _ _ _ _ _ _ _
                Hc Hg H1' H2' H3' H4' H5' H6' Hmp) as Hit.
  unfold bind at 1 in Hit.
  rewrite (run_or_read_eval_hit _ _ _ _ _ _ _ Hstored) in Hit.
  split.
  - intros ->. rewrite prediction_loop_S, Hit. done.
  - intros line Hline Hparse. exists "".
    rewrite prediction_loop_S, Hit, Hline, Hparse. done.
Qed.
End loop_more.

(** ** More on the reporting collection *)

Section reporting_more.
Context `{JsonCodec} `{CacheKey} `{chatbot_config.Config}
        `{modeling.Modeling} `{Scoring} `{Repr} `{reporting_utils.Naming}.
Import cache_utils search_space chatbot.

(** X11: what makes the record of one parameter file fail.  A name that
    does not end in .zbp fails the assertion before any file is read; a
    parameter file that is not there, or an output file that is not there
    beside a readable parameter file, raises FileNotFoundError of that
    path; a parameter file that is not JSON raises JSONDecodeError.  The
    world is unchanged in every case. *)
Theorem load_run_failures
    (my_space : CompositeSearchSpace) (w : World) :
  (forall param_file,
     endswith ".zbp" param_file = false ->
     load_run my_space param_file w = (Err AssertionError, w)) /\
  (forall root,
     files w !! (root +:+ ".zbp") = None ->
     load_run my_space (root +:+ ".zbp") w
       = (Err (FileNotFoundError (root +:+ ".zbp")), w)) /\
  (forall root stored,
     files w !! (root +:+ ".zbp") = Some stored ->
     json_loads stored = None ->
     load_run my_space (root +:+ ".zbp") w = (Err JSONDecodeError, w)) /\
  (forall root stored loaded_parameters,
     files w !! (root +:+ ".zbp") = Some stored ->
     json_loads stored = Some loaded_parameters ->
     files w !! (root +:+ ".json") = None ->
     load_run my_space (root +:+ ".zbp") w
       = (Err (FileNotFoundError (root +:+ ".json")), w)).
Proof.
  split; [|split; [|split]].
  - intros param_file Hsuffix. unfold load_run. by rewrite Hsuffix.
  - intros root Hparam. unfold load_run. rewrite endswith_app. cbn [negb].
    py_unfold. by rewrite Hparam.
  - intros root stored Hparam Hjson. unfold load_run.
    rewrite endswith_app. cbn [negb]. py_unfold.
    by rewrite Hparam, Hjson.
  - intros root stored loaded Hparam Hjson Hout. unfold load_run.
    rewrite endswith_app. cbn [negb].
    change 4 with (String.length ".zbp"). rewrite drop_last_app.
    py_unfold. rewrite Hparam, Hjson. cbn. by rewrite Hout.
Qed.

Lemma json_load_world p w : snd (json_load p w) = w.
Proof.
  py_unfold. destruct (files w !! p) as [c|]; [|done].
  by destruct (json_loads c).
Qed.

Lemma load_run_world my_space param_file w :
  snd (load_run my_space param_file w) = w.
Proof.
  unfold load_run. destruct (negb (endswith ".zbp" param_file)); [done|].
  unfold bind at 1.
  pose proof (json_load_world param_file w) as Hp.
  destruct (json_load param_file w) as [[j|e] w1]; cbn in Hp; subst w1;
    [|done].
  unfold bind at 1.
  pose proof (json_load_world (drop_last 4 param_file +:+ ".json") w) as Ho.
  destruct (json_load (drop_last 4 param_file +:+ ".json") w)
    as [[j2|e] w1]; cbn in Ho; subst w1; done.
Qed.

Lemma load_runs_world my_space param_files :
  forall results w, snd (load_runs my_space param_files results w) = w.
Proof.
  induction param_files as [|f rest IH]; intros results w; cbn; [done|].
  unfold bind at 1. pose proof (load_run_world my_space f w) as Hw.
  destruct (load_run my_space f w) as [[run|e] w1]; cbn in Hw; subst w1;
    [apply IH|done].
Qed.

(** X12: gathering the records for the report only reads.  Whether
    lines 127-147 end with the sorted collection or in an exception of a
    parameter or output file that cannot be loaded, they change neither a
    file nor the heap, and they print nothing: the trace grows by the
    warning of line 131 at most. *)
Theorem reporting_reads_only
    (my_space : CompositeSearchSpace) (predictions_dir : string) (w : World) :
  let w' := snd (collect_results my_space predictions_dir w) in
  files w' = files w /\ heap w' = heap w /\
  (trace w' = trace w \/
   trace w' = trace w ++
     [EvWarning "Not enough completed but performing visualization anyway."]).
Proof.
  intros w'. subst w'.
  destruct (collect_results my_space predictions_dir w) as [r w1] eqn:Hrun.
  cbn [snd]. unfold collect_results in Hrun.
  apply bind_cases in Hrun as [(e & Hv & _)|(param_files & w0 & Hv & Hrun)].
  { discriminate Hv. }
  assert (w0 = w) as -> by (by injection Hv as _ <-).
  apply bind_cases in Hrun as [(e & Hwarn & _)|([] & w2 & Hwarn & Hrun)].
  { destruct chatbot_config.num_trials as [[|n]|]; [done| |done].
    by case_bool_decide. }
  assert (files w2 = files w /\ heap w2 = heap w /\
          (trace w2 = trace w \/
           trace w2 = trace w ++
             [EvWarning
                "Not enough completed but performing visualization anyway."]))
    as (Hf & Hh & Ht).
  { destruct chatbot_config.num_trials as [[|n]|];
      [injection Hwarn as <-; by eauto| |injection Hwarn as <-; by eauto].
    case_bool_decide; injection Hwarn as <-; cbn; by eauto. }
  pose proof (load_runs_world my_space param_files [] w2) as Hload.
  apply bind_cases in Hrun as [(e & Hl & _)|(results & w3 & Hl & Hret)].
  - rewrite Hl in Hload. cbn in Hload. by subst.
  - rewrite Hl in Hload. cbn in Hload. injection Hret as _ <-. by subst.
Qed.

Lemma sort_by_name_cons x results :
  sort_by_name (x :: results) = insert_run x (sort_by_name results).
Proof. reflexivity. Qed.

Lemma insert_run_filter n x sorted :
  filter (fun r => name r = n) (insert_run x sorted) =
  filter (fun r => name r = n) (x :: sorted).
Proof.
  induction sorted as [|y rest IH]; [done|]. cbn [insert_run].
  case_bool_decide as Hle; [done|].
  rewrite filter_cons, IH, !filter_cons.
  destruct (decide (name y = n)) as [Hy|Hy]; [|done].
  destruct (decide (name x = n)) as [Hx|Hx]; [|done].
  exfalso. apply Hle. rewrite Hx, <- Hy. reflexivity.
Qed.

(** X13: the sort of the collection is stable: the records that share a
    name come out in the order in which their parameter files were read. *)
Theorem sort_by_name_stable (n : string) (results : list ExperimentRun) :
  filter (fun r => name r = n) (sort_by_name results) =
  filter (fun r => name r = n) results.
Proof.
  induction results as [|x rest IH]; [done|].
  rewrite sort_by_name_cons, insert_run_filter, !filter_cons, IH. done.
Qed.

(** X14: a collection that is already in ascending order of name is
    returned as it is, so sorting a second time changes nothing. *)
Theorem sort_by_name_sorted_input (results : list ExperimentRun) :
  (StronglySorted by_name results -> sort_by_name results = results) /\
  sort_by_name (sort_by_name results) = sort_by_name results.
Proof.
  assert (forall l, StronglySorted by_name l -> sort_by_name l = l) as Hfix.
  { induction 1 as [|x rest Hsorted IH Hall]; [done|].
    rewrite sort_by_name_cons, IH. destruct rest as [|y rest]; [done|].
    cbn. apply Forall_cons in Hall as [Hxy _].
    by rewrite bool_decide_eq_true_2. }
  split; [apply Hfix|]. apply Hfix, sort_by_name_sorted.
Qed.
End reporting_more.

(** ** More on chatbot_main as a whole *)

Section main_more.
Context `{JsonCodec} `{CacheKey} `{chatbot_config.Config}
        `{modeling.Modeling} `{Scoring} `{Repr} `{reporting_utils.Naming}.
Import cache_utils search_space chatbot.

(** X15: the warning of the reporting phase.  Gathering the records logs
    "Not enough completed ..." exactly when a trial budget is set, is not
    zero, and is larger than the number of parameter files found; nothing
    else is logged, whether the records can then be loaded or not. *)
Theorem collect_results_warning
    (my_space : CompositeSearchSpace) (predictions_dir : string) (w : World)
    (param_files : list string) :
  get_valid_param_files my_space predictions_dir false w
    = (Ok param_files, w) ->
  trace (snd (collect_results my_space predictions_dir w)) =
  trace w ++
  match chatbot_config.num_trials with
  | Some budget =>
      if bool_decide (budget <> 0%nat /\ length param_files < budget)
      then [EvWarning
              "Not enough completed but performing visualization anyway."]
      else []
  | None => []
  end.
Proof.
  intros Hvalid. unfold collect_results.
  rewrite (bind_run _ _ _ _ _ Hvalid). unfold bind at 1.
  destruct chatbot_config.num_trials as [[|n]|]; cbn.
  - unfold bind. pose proof (load_runs_world my_space param_files [] w) as Hw.
    destruct (load_runs my_space param_files [] w) as [[runs|e] w1];
      cbn in *; subst w1; rewrite bool_decide_eq_false_2 by lia;
      by rewrite app_nil_r.
  - destruct (decide (length param_files < S n)) as [Hlt|Hge].
    + rewrite bool_decide_eq_true_2 by done.
      rewrite (bool_decide_eq_true_2 (S n <> 0%nat /\ _)) by (split; [lia|done]).
      cbn. unfold bind.
      match goal with
      | |- context [load_runs _ _ _ ?w0] =>
          pose proof (load_runs_world my_space param_files [] w0) as Hw;
          destruct (load_runs my_space param_files [] w0) as [[runs|e] w1]
      end; cbn in *; by subst w1.
    + rewrite bool_decide_eq_false_2 by done.
      rewrite (bool_decide_eq_false_2 (S n <> 0%nat /\ _)) by (intros [_ ?]; done).
      cbn. unfold bind.
      pose proof (load_runs_world my_space param_files [] w) as Hw.
      destruct (load_runs my_space param_files [] w) as [[runs|e] w1];
        cbn in *; subst w1; by rewrite app_nil_r.
  - unfold bind. pose proof (load_runs_world my_space param_files [] w) as Hw.
    destruct (load_runs my_space param_files [] w) as [[runs|e] w1];
      cbn in *; subst w1; by rewrite app_nil_r.
Qed.

(** X16: without the prediction phase chatbot_main needs no pass of the
    loop: it ends for every fuel, zero included, and with the same
    result. *)
Theorem chatbot_main_without_prediction
    (fuel : nat) (models : list string) (single_model : string)
    (prompts : list string) (single_prompt : string)
    (experiments : list string) (hf_inference_method results_dir : string)
    (do_visualization : bool) (w : World) :
  is_Some (chatbot_main fuel models single_model prompts single_prompt
             experiments hf_inference_method results_dir false
             do_visualization w) /\
  chatbot_main fuel models single_model prompts single_prompt experiments
    hf_inference_method results_dir false do_visualization w =
  chatbot_main 0 models single_model prompts single_prompt experiments
    hf_inference_method results_dir false do_visualization w.
Proof.
  unfold chatbot_main.
  destruct (prepare models single_model prompts single_prompt experiments
              results_dir w) as [[[[my_space labels] contexts]|e] w1];
    [|by eauto].
  destruct do_visualization; eauto.
Qed.

(** X17: a conversation without messages in the processed data ends
    chatbot_main with IndexError right after the data is loaded: whatever
    the flags and the fuel, no prediction is made and nothing is
    visualized, and the world is the one process_data left. *)
Theorem chatbot_main_empty_conversation
    (fuel : nat) (models : list string) (single_model : string)
    (prompts : list string) (single_prompt : string)
    (experiments : list string) (hf_inference_method results_dir : string)
    (do_prediction do_visualization : bool) (w w1 w2 : World)
    (settings : list positive) (dataset_config : DatasetConfig.t)
    (contexts_and_labels : list ChatMessages) :
  (forall x preset, dict_lookup x chatbot_config.experiments = Some preset ->
     is_Some (heap w !! preset)) ->
  experiment_settings experiments models single_model prompts single_prompt w
    = (Ok settings, w1) ->
  dict_lookup chatbot_config.dataset chatbot_config.dataset_configs
    = Some dataset_config ->
  modeling.process_data (DatasetConfig.dataset dataset_config)
    (DatasetConfig.split dataset_config)
    (DatasetConfig.data_format dataset_config)
    (DatasetConfig.data_column dataset_config)
    (path_join results_dir "data") w1 = (Ok contexts_and_labels, w2) ->
  Exists (fun candl => messages candl = []) contexts_and_labels ->
  chatbot_main fuel models single_model prompts single_prompt experiments
    hf_inference_method results_dir do_prediction do_visualization w
  = Some (Err IndexError, w2).
Proof.
  intros Hwf Hsettings Hdataset Hdata Hempty.
  destruct (overridden_settings_on_heap _ _ _ _ _ _ _ _ Hwf Hsettings)
    as (my_space & Hheap & _).
  pose proof (composite_run _ _ _ Hheap) as Hcomposite.
  unfold chatbot_main, prepare.
  rewrite (bind_run _ _ _ _ _ Hsettings).
  rewrite (bind_run _ _ _ _ _ Hcomposite).
  rewrite (bind_run _ _ _ _ _ (dict_get_run _ _ _ _ Hdataset)).
  rewrite (bind_run _ _ _ _ _ Hdata).
  unfold bind, lift. by rewrite (organize_empty _ Hempty).
Qed.
End main_more.

(** ** Further runs of the sample collaborators *)

Section more_sample_runs.
Local Existing Instances sample.key sample.traceback sample.whisper
  sample.config sample.scoring sample.repr sample.naming.
Import cache_utils search_space exhaustive.

Section with_sample_codec.
Local Existing Instances sample.codec sample.chat_modeling.

Lemma transcribe_audio_texts_witness :
  fst (transcription.transcribe_audio "tiny" ["a.wav"; "b.wav"]
         sample.empty_world) = Ok ["tiny:a.wav"; "tiny:b.wav"].
Proof.
  apply (proj2 (transcribe_audio_texts "tiny" ["a.wav"; "b.wav"]
                  ["tiny:a.wav"; "tiny:b.wav"] sample.empty_world)).
  exists "tiny". split; [reflexivity|]. repeat constructor.
Defined.

Lemma transcribe_audio_first_failure_witness :
  fst (transcription.transcribe_audio "broken" ["a.wav"] sample.empty_world)
  = Err (BackendError "no such model").
Proof.
  apply (proj1 (transcribe_audio_first_failure "broken" sample.empty_world
                  (BackendError "no such model"))).
  reflexivity.
Defined.

Lemma experiment_settings_succeeds_witness :
  exists settings w',
    chatbot.experiment_settings ["model"; "prompt"] ["gpt2"; "llama"] "gpt2"
      ["standard"] "standard" sample.preset_world = (Ok settings, w').
Proof.
  assert (forall x preset,
            dict_lookup x chatbot_config.experiments = Some preset ->
            is_Some (heap sample.preset_world !! preset)) as Hwf.
  { intros x preset. simpl. repeat case_decide; intros [= <-];
      eexists; reflexivity. }
  assert (Forall (fun x => is_Some (dict_lookup x chatbot_config.experiments))
            ["model"; "prompt"]) as Hknown.
  { constructor; [|constructor; [|constructor]]; eexists; reflexivity. }
  apply (proj2 (experiment_settings_succeeds_iff ["model"; "prompt"]
                  ["gpt2"; "llama"] "gpt2" ["standard"] "standard"
                  sample.preset_world Hwf Hknown)).
  constructor; [|constructor; [|constructor]];
    intros preset s Hpre Hs; injection Hpre as <-;
    vm_compute in Hs; injection Hs as <-;
    (split; eexists; (split; [reflexivity|exact I])).
Defined.

Lemma experiment_settings_unknown_witness :
  fst (chatbot.experiment_settings ["model"; "latency"; "prompt"] ["gpt2"]
         "gpt2" ["standard"] "standard" sample.preset_world)
  = Err (KeyError "latency").
Proof.
  apply (experiment_settings_unknown_experiment ["model"] "latency"
           ["prompt"] ["gpt2"] "gpt2" ["standard"] "standard"
           sample.preset_world).
  - intros x preset. simpl. repeat case_decide; intros [= <-];
      eexists; reflexivity.
  - constructor; [|constructor]. eexists. reflexivity.
  - reflexivity.
Defined.

Lemma composite_of_experiment_settings_witness :
  exists settings w' my_space,
    chatbot.experiment_settings ["prompt"; "prompt"] ["gpt2"] "llama"
      ["polite"] "standard" sample.preset_world = (Ok settings, w') /\
    chatbot.composite settings w' = (Ok my_space, w') /\
    length my_space = 2%nat.
Proof.
  destruct (chatbot.experiment_settings ["prompt"; "prompt"] ["gpt2"] "llama"
              ["polite"] "standard" sample.preset_world)
    as [[settings|e] w'] eqn:Hrun.
  - assert (forall x preset,
              dict_lookup x chatbot_config.experiments = Some preset ->
              is_Some (heap sample.preset_world !! preset)) as Hwf.
    { intros x preset. simpl. repeat case_decide; intros [= <-];
        eexists; reflexivity. }
    destruct (composite_of_experiment_settings _ _ _ _ _ _ _ _ Hwf Hrun)
      as (my_space & Hcomposite & Hall).
    exists settings, w', my_space. split; [reflexivity|].
    split; [exact Hcomposite|].
    rewrite <- (Forall2_length _ _ _ Hall). reflexivity.
  - vm_compute in Hrun. discriminate Hrun.
Defined.

Lemma iteration_missing_parameter_witness :
  chatbot.iteration [] [] "huggingface" "results"
    (new [more_samples.partial_space] None) sample.empty_world
  = (Err (KeyError "temperature"), sample.empty_world).
Proof.
  eapply (iteration_missing_parameter [] [] "huggingface" "results"
            (new [more_samples.partial_space] None) _ sample.empty_world _
            ["prompt_preset"; "model_preset"]
            ["max_tokens"; "top_p"; "context_length"] "temperature").
  - reflexivity.
  - reflexivity.
  - reflexivity.
  - constructor; [|constructor; [|constructor]]; eexists; reflexivity.
  - reflexivity.
Defined.

Lemma prediction_loop_unreadable_eval_witness :
  chatbot.prediction_loop 1 [] [] "huggingface" "results"
    (new [sample.model_space] None)
    (sample.world_of [("results/gpt2.eval", "")])
  = Some (Err StopIteration, sample.world_of [("results/gpt2.eval", "")]).
Proof.
  epose proof (prediction_loop_unreadable_eval [] [] "huggingface" "results"
                 0%nat (new [sample.model_space] None) _
                 (sample.world_of [("results/gpt2.eval", "")]) _
                 _ _ _ _ _ _ _ _ _ ""
                 eq_refl eq_refl eq_refl eq_refl eq_refl eq_refl eq_refl
                 eq_refl eq_refl eq_refl) as [Hempty _].
  exact (Hempty eq_refl).
Defined.

Lemma load_run_failures_witness :
  chatbot.load_run [] "results/gpt2.json" sample.empty_world
  = (Err AssertionError, sample.empty_world).
Proof.
  apply (proj1 (load_run_failures [] sample.empty_world)). reflexivity.
Defined.

Lemma sort_by_name_sorted_input_witness :
  chatbot.sort_by_name
    [mkRun JNull JNull "alpha"; mkRun JNull JNull "beta"]
  = [mkRun JNull JNull "alpha"; mkRun JNull JNull "beta"].
Proof.
  apply (proj1 (sort_by_name_sorted_input
                  [mkRun JNull JNull "alpha"; mkRun JNull JNull "beta"])).
  repeat constructor.
Defined.

Lemma collect_results_warning_witness :
  trace (snd (chatbot.collect_results [sample.model_space] "results"
                sample.empty_world))
  = [EvWarning "Not enough completed but performing visualization anyway."].
Proof.
  rewrite (collect_results_warning [sample.model_space] "results"
             sample.empty_world []).
  - reflexivity.
  - reflexivity.
Defined.
End with_sample_codec.

Section with_array_codec.
Local Existing Instance more_samples.array_codec.

Lemma make_predictions_cached_per_model_witness :
  let w1 := snd (transcription.make_predictions ["a.wav"] "tiny" "results"
                   sample.empty_world) in
  transcription.make_predictions ["b.wav"; "c.wav"] "tiny" "results" w1
  = (Ok (Some (JArr [JStr "tiny:a.wav"])), w1).
Proof.
  apply (make_predictions_cached_per_model ["a.wav"] "tiny" "results"
           sample.empty_world ["tiny:a.wav"]); reflexivity.
Defined.
End with_array_codec.

Section with_empty_data.
Local Existing Instances sample.codec more_samples.empty_data_modeling.

Lemma chatbot_main_empty_conversation_witness :
  exists w2,
    chatbot.chatbot_main 0 ["gpt2"] "gpt2" ["standard"] "standard" ["model"]
      "huggingface" "results" true true sample.preset_world
    = Some (Err IndexError, w2).
Proof.
  destruct (chatbot.experiment_settings ["model"] ["gpt2"] "gpt2"
              ["standard"] "standard" sample.preset_world)
    as [[settings|e] w1] eqn:Hrun.
  - exists w1.
    eapply (chatbot_main_empty_conversation 0 ["gpt2"] "gpt2" ["standard"]
              "standard" ["model"] "huggingface" "results" true true
              sample.preset_world w1 w1 settings).
    + intros x preset. simpl. repeat case_decide; intros [= <-];
        eexists; reflexivity.
    + exact Hrun.
    + reflexivity.
    + reflexivity.
    + right. left. reflexivity.
  - vm_compute in Hrun. discriminate Hrun.
Defined.
End with_empty_data.
End more_sample_runs.
